(** * The Samsung TV channel-list codec (channel.py), embedded in Rocq

    A shallow embedding of [custom_components/samsungtv_advanced/channel.py]:
    the binary channel-list decoder [Channel._parse_channel_list], the two
    construction paths of [Channel] ([_parse_dat] from a 124-byte record,
    [_parse_xml] from a minidom node) and the encoder [Channel.as_xml].

    Python values are modelled as the interpreter has them:
    - [bytes] is a list of [Byte.byte];
    - [str] is a list of Unicode code points (as [Z]);
    - [int] is [Z] (unbounded);
    - an attribute that may hold an [int], a [str] or [None] is a [pyval];
    - a raised exception is the [Raise] branch of [result]. *)

From Stdlib Require Import ZArith List String Ascii Strings.Byte.
From Stdlib Require Import DecimalString HexadecimalString DecimalZ DecimalN.
From stdpp Require Import base option list gmap.
Set Warnings "-clear-no-such-hyp,-register-all".
Import ListNotations.

(** ** Python values *)

Module Py.

Abbreviation bytes := (list byte).

(** A [str] is a sequence of code points. *)
Abbreviation str := (list Z).

(** The code points of an ASCII literal of the source text. *)
Definition lit (s : string) : str :=
  map (fun a => Z.of_N (N_of_ascii a)) (list_ascii_of_string s).

(** The value of one element of a [bytes] object, [0 .. 255]. *)
Definition bz (b : byte) : Z := Z.of_N (Byte.to_N b).

(** [bytes([z])]: the byte of value [z mod 256]. *)
Definition byte_of (z : Z) : byte :=
  match Byte.of_N (Z.to_N (z mod 256)) with
  | Some b => b
  | None => x00
  end.

Inductive pyval : Type :=
  | PyInt (z : Z)
  | PyStr (s : str)
  | PyNone.

(** The exceptions the module can raise.  [ParseException] is the module's
    own class (a [ContextException]: a message and a list of context
    strings); the others are raised by the interpreter and its library. *)
Inductive exn : Type :=
  | ParseException (msg : str) (context : list str)
  | StructError
  | UnicodeDecodeError
  | TypeError
  | AttributeError
  | IndexError.

Inductive result (A : Type) : Type :=
  | Ok (a : A)
  | Raise (e : exn).
Arguments Ok {A} a.
Arguments Raise {A} e.

#[global] Instance result_ret : MRet result := @Ok.
#[global] Instance result_bind : MBind result := fun A B f m =>
  match m with
  | Ok a => f a
  | Raise e => Raise e
  end.

(** [seq[i:j]] for [0 <= i <= j]: Python clips the slice to the sequence. *)
Definition slice {A} (s : list A) (i j : nat) : list A := take (j - i) (drop i s).

(** ** String formatting *)

(** ['%d' % z]: the decimal numeral of [z], no padding. *)
Definition format_d (z : Z) : str :=
  lit (DecimalString.NilZero.string_of_int (Z.to_int z)).

(** ['%04x' % z] for [0 <= z]: lower-case hexadecimal, zero-padded on the left
    to at least four digits. *)
Definition format_04x (z : Z) : str :=
  let h := lit (HexadecimalString.NilZero.string_of_uint (N.to_hex_uint (Z.to_N z))) in
  replicate (4 - length h) 48%Z ++ h.

(** One lower-case hexadecimal digit. *)
Definition hexdigit (z : Z) : Z := (if z <? 10 then 48 + z else 87 + z)%Z.

(** [repr(b)] of a [bytes] object, as CPython prints it: single quotes unless
    the value holds a single quote and no double quote; backslash escapes for
    the quote, the backslash, tab, newline and carriage return; [\xhh] for
    every other byte outside the printable ASCII range. *)
Definition repr_byte (quote : Z) (c : Z) : str :=
  (if (c =? quote) || (c =? 92) then [92; c]
   else if c =? 9 then [92; 116]
   else if c =? 10 then [92; 110]
   else if c =? 13 then [92; 114]
   else if (c <? 32) || (127 <=? c) then [92; 120; hexdigit (c / 16); hexdigit (c mod 16)]
   else [c])%Z.

Definition repr_bytes (b : bytes) : str :=
  let cs := map bz b in
  let quote := (if existsb (Z.eqb 39) cs && negb (existsb (Z.eqb 34) cs) then 34 else 39)%Z in
  [98%Z; quote] ++ flat_map (repr_byte quote) cs ++ [quote].

(** ** [bytes.decode('utf-8')] (strict error handling)

    The decoder of RFC 3629: shortest forms only, no surrogates, nothing above
    U+10FFFF.  [None] stands for [UnicodeDecodeError]. *)

Section Utf8.
Local Open Scope Z_scope.

Definition is_cont (c : Z) : bool := (0x80 <=? c) && (c <=? 0xBF).
Definition in_range (lo hi c : Z) : bool := (lo <=? c) && (c <=? hi).

Fixpoint utf8_decode (bs : bytes) : option str :=
  match bs with
  | [] => Some []
  | b0 :: r0 =>
    let c0 := bz b0 in
    if c0 <? 0x80 then cons c0 <$> utf8_decode r0
    else if in_range 0xC2 0xDF c0 then
      match r0 with
      | b1 :: r1 =>
        let c1 := bz b1 in
        if is_cont c1
        then cons ((c0 - 0xC0) * 64 + (c1 - 0x80)) <$> utf8_decode r1
        else None
      | _ => None
      end
    else if in_range 0xE0 0xEF c0 then
      match r0 with
      | b1 :: b2 :: r2 =>
        let c1 := bz b1 in
        let c2 := bz b2 in
        let lo := if c0 =? 0xE0 then 0xA0 else 0x80 in
        let hi := if c0 =? 0xED then 0x9F else 0xBF in
        if in_range lo hi c1 && is_cont c2
        then cons ((c0 - 0xE0) * 4096 + (c1 - 0x80) * 64 + (c2 - 0x80)) <$> utf8_decode r2
        else None
      | _ => None
      end
    else if in_range 0xF0 0xF4 c0 then
      match r0 with
      | b1 :: b2 :: b3 :: r3 =>
        let c1 := bz b1 in
        let c2 := bz b2 in
        let c3 := bz b3 in
        let lo := if c0 =? 0xF0 then 0x90 else 0x80 in
        let hi := if c0 =? 0xF4 then 0x8F else 0xBF in
        if in_range lo hi c1 && is_cont c2 && is_cont c3
        then cons ((c0 - 0xF0) * 262144 + (c1 - 0x80) * 4096 + (c2 - 0x80) * 64 + (c3 - 0x80))
               <$> utf8_decode r3
        else None
      | _ => None
      end
    else None
  end.

End Utf8.

Definition decode_utf8 (b : bytes) : result str :=
  match utf8_decode b with
  | Some s => Ok s
  | None => Raise UnicodeDecodeError
  end.

(** [s.rstrip('\x00')]: drop every trailing NUL. *)
Fixpoint rstrip_nul (s : str) : str :=
  match s with
  | [] => []
  | c :: r =>
    match rstrip_nul r with
    | [] => if (c =? 0)%Z then [] else [c]
    | r' => c :: r'
    end
  end.

(** [list(s)] of a [str]: its characters, each a [str] of length one. *)
Definition list_of_str (s : str) : list str := map (fun c => [c]) s.

End Py.
Import Py.

(** ** [_getint] *)

(** [struct.unpack('<H', buf[offset:offset + 2])[0]]: a 16-bit little-endian
    unsigned; [struct.error] unless the slice holds exactly two bytes. *)
Definition _getint (buf : bytes) (offset : nat) : result Z :=
  match slice buf offset (offset + 2) with
  | [lo; hi] => Ok (bz lo + 256 * bz hi)%Z
  | _ => Raise StructError
  end.

(** ** The [Channel] class *)

Record Channel : Type := mkChannel {
  ch_type : pyval;
  major_ch : pyval;
  minor_ch : pyval;
  ptc : pyval;
  prog_num : pyval;
  dispno : pyval;
  title : pyval
}.

(** [Channel._parse_dat]: the binary construction path.  The statements run
    in the order of the source; the first one that raises ends the
    construction and no object is returned. *)
Definition _parse_dat (buf : bytes) : result Channel :=
  t ← _getint buf 0;
  ch_type ← (if (t =? 4)%Z then Ok (lit "CDTV")
             else if (t =? 3)%Z then Ok (lit "CATV")
             else if (t =? 2)%Z then Ok (lit "DTV")
             else Raise (ParseException (lit "Unknown channel type " ++ format_d t) []));
  major_ch ← _getint buf 2;
  minor_ch ← _getint buf 4;
  ptc ← _getint buf 6;
  prog_num ← _getint buf 8;
  r ← _getint buf 10;
  _ ← (if (r =? 0xffff)%Z then Ok ()
       else r' ← _getint buf 10;
            Raise (ParseException (lit "reserved field mismatch (" ++ format_04x r' ++ lit ")") []));
  d ← decode_utf8 (slice buf 12 16);
  title_len ← _getint buf 22;
  title ← decode_utf8 (slice buf 24 (24 + Z.to_nat title_len));
  Ok {| ch_type := PyStr ch_type;
        major_ch := PyInt major_ch;
        minor_ch := PyInt minor_ch;
        ptc := PyInt ptc;
        prog_num := PyInt prog_num;
        dispno := PyStr (rstrip_nul d);
        title := PyStr title |}.

(** ** minidom nodes

    The part of [xml.dom.minidom] the XML construction path touches: a node
    is a document, an element, or character data (text, comment). *)

Inductive node : Type :=
  | Document (children : list node)
  | Element (tagName : str) (children : list node)
  | Text (data : str)
  | Comment (data : str).

(** [node.childNodes]; character data has none. *)
Definition childNodes (n : node) : list node :=
  match n with
  | Document cs | Element _ cs => cs
  | Text _ | Comment _ => []
  end.

(** [node.nodeValue]: the data of character data, [None] for an element or a
    document. *)
Definition nodeValue (n : node) : pyval :=
  match n with
  | Text d | Comment d => PyStr d
  | Document _ | Element _ _ => PyNone
  end.

(** minidom's [_get_elements_by_tagName_helper]: the descendant elements
    named [name], in document order ([name] is never the wildcard here). *)
Fixpoint _get_elements_by_tagName_helper (name : str) (parent : node) : list node :=
  let go := fix go (cs : list node) : list node :=
    match cs with
    | [] => []
    | c :: cs' =>
      (match c with
       | Element t _ => if decide (t = name) then [c] else []
       | _ => []
       end) ++ _get_elements_by_tagName_helper name c ++ go cs'
    end in
  match parent with
  | Document cs | Element _ cs => go cs
  | Text _ | Comment _ => []
  end.

(** [node.getElementsByTagName(name)]: a method of documents and elements
    only. *)
Definition getElementsByTagName (n : node) (name : str) : result (list node) :=
  match n with
  | Document _ | Element _ _ => Ok (_get_elements_by_tagName_helper name n)
  | Text _ | Comment _ => Raise AttributeError
  end.

(** [seq[0]] *)
Definition item0 {A} (s : list A) : result A :=
  match s with
  | x :: _ => Ok x
  | [] => Raise IndexError
  end.

(** [root.getElementsByTagName(name)[0].childNodes[0].nodeValue] *)
Definition first_child_value (root : node) (name : str) : result pyval :=
  es ← getElementsByTagName root name;
  e ← item0 es;
  c ← item0 (childNodes e);
  Ok (nodeValue c).

(** [Channel._parse_xml]: the XML construction path.  Whatever is raised
    inside the [try] block is replaced by one [ParseException]. *)
Definition _parse_xml (root : node) : result Channel :=
  let body :=
    ch_type ← first_child_value root (lit "ChType");
    major_ch ← first_child_value root (lit "MajorCh");
    minor_ch ← first_child_value root (lit "MinorCh");
    ptc ← first_child_value root (lit "PTC");
    prog_num ← first_child_value root (lit "ProgNum");
    Ok {| ch_type := ch_type;
          major_ch := major_ch;
          minor_ch := minor_ch;
          ptc := ptc;
          prog_num := prog_num;
          dispno := major_ch;
          title := PyStr [] |} in
  match body with
  | Ok ch => Ok ch
  | Raise _ => Raise (ParseException (lit "Wrong XML document") [])
  end.

(** The argument of the constructor: a minidom node or a [bytes] chunk. *)
Inductive from_dat : Type :=
  | FromNode (root : node)
  | FromBytes (buf : bytes).

(** [Channel.__init__] *)
Definition __init__ (arg : from_dat) : result Channel :=
  match arg with
  | FromNode root => _parse_xml root
  | FromBytes buf => _parse_dat buf
  end.

(** ** Encoding *)

(** [s.replace(old, new)] for a one-character [old]. *)
Definition replace_char (old : Z) (new : str) (s : str) : str :=
  flat_map (fun c => if (c =? old)%Z then new else [c]) s.

(** [xml.sax.saxutils.escape(data)]: the three replacements in the library's
    order.  Only a [str] has a [replace] method. *)
Definition escape (data : pyval) : result str :=
  match data with
  | PyStr s =>
    let s := replace_char 38 (lit "&amp;") s in
    let s := replace_char 62 (lit "&gt;") s in
    let s := replace_char 60 (lit "&lt;") s in
    Ok s
  | _ => Raise AttributeError
  end.

(** The [%d] conversion of the [%] operator: a number is required. *)
Definition percent_d (v : pyval) : result str :=
  match v with
  | PyInt z => Ok (format_d z)
  | _ => Raise TypeError
  end.

(** The quotation mark, kept out of the literals. *)
Definition dq : str := [34%Z].

Definition xml_declaration : str :=
  lit "<?xml version=" ++ dq ++ lit "1.0" ++ dq ++
  lit " encoding=" ++ dq ++ lit "UTF-8" ++ dq ++ lit " ?>".

(** [Channel.as_xml] *)
Definition as_xml (self : Channel) : result str :=
  t ← escape (ch_type self);
  a ← percent_d (major_ch self);
  b ← percent_d (minor_ch self);
  c ← percent_d (ptc self);
  d ← percent_d (prog_num self);
  Ok (xml_declaration ++ lit "<Channel><ChType>" ++ t ++
      lit "</ChType><MajorCh>" ++ a ++
      lit "</MajorCh><MinorCh>" ++ b ++
      lit "</MinorCh><PTC>" ++ c ++
      lit "</PTC><ProgNum>" ++ d ++
      lit "</ProgNum></Channel>").

(** ** Rendering

    [ContextException.__str__], [Channel.display_string], [Channel.__repr__]
    and [Channel.as_params]. *)

(** [sep.join(l)] *)
Definition join (sep : str) (l : list str) : str :=
  match l with
  | [] => []
  | x :: r => x ++ flat_map (fun y => sep ++ y) r
  end.

(** [ContextException.__str__] of an exception with message [msg] and
    context list [context]: the message alone when the list is empty, the
    message and the entries joined by a semicolon otherwise. *)
Definition __str__ (msg : str) (context : list str) : str :=
  match context with
  | [] => msg
  | _ => msg ++ lit " [context: " ++ join (lit "; ") context ++ lit "]"
  end.

(** The [%s] conversion: [str(v)]. *)
Definition percent_s (v : pyval) : str :=
  match v with
  | PyStr s => s
  | PyInt z => format_d z
  | PyNone => lit "None"
  end.

(** The [% 4s] conversion: [str(v)] right-aligned in a field of four
    characters (the space flag has no effect on a string conversion); a
    longer text is not cut. *)
Definition percent_4s (v : pyval) : str :=
  let s := percent_s v in
  replicate (4 - length s) 32%Z ++ s.

(** [Channel.display_string] *)
Definition display_string (self : Channel) : str :=
  lit "[" ++ percent_s (ch_type self) ++ lit "] " ++ percent_4s (dispno self) ++
  lit " " ++ percent_s (title self).

Section Repr.

(** [repr] of a [str] object depends on the interpreter's table of printable
    characters; it is a parameter here. *)
Variable repr_str : str → str.

(** [repr(v)] *)
Definition repr_val (v : pyval) : str :=
  match v with
  | PyStr s => repr_str s
  | PyInt z => format_d z
  | PyNone => lit "None"
  end.

(** [Channel.__repr__] *)
Definition __repr__ (self : Channel) : result str :=
  let t := repr_val (title self) in
  a ← percent_d (major_ch self);
  b ← percent_d (minor_ch self);
  c ← percent_d (ptc self);
  d ← percent_d (prog_num self);
  Ok (lit "<Channel " ++ percent_s (dispno self) ++ lit " " ++ t ++
      lit " ChType=" ++ percent_s (ch_type self) ++
      lit " MajorCh=" ++ a ++ lit " MinorCh=" ++ b ++
      lit " PTC=" ++ c ++ lit " ProgNum=" ++ d ++ lit ">").

End Repr.

(** [Channel.as_params]: the three request parameters; the [Channel] entry
    is the value of the [as_xml] property. *)
Definition as_params (self : Channel) (chtype sid : pyval) : result (gmap str pyval) :=
  xml ← as_xml self;
  Ok (<[lit "SatelliteID" := sid]>
        (<[lit "Channel" := PyStr xml]>
           (<[lit "ChannelListType" := chtype]> ∅))).

(** ** The decoder *)

#[global] Instance pyval_eq_dec : EqDecision pyval.
Proof. solve_decision. Defined.

#[global] Instance pyval_countable : Countable pyval :=
  inj_countable'
    (fun v => match v with
              | PyInt z => inl z
              | PyStr s => inr (inl s)
              | PyNone => inr (inr ())
              end)
    (fun x => match x with
              | inl z => PyInt z
              | inr (inl s) => PyStr s
              | inr (inr _) => PyNone
              end)
    (fun v => match v with PyInt _ | PyStr _ | PyNone => eq_refl end).

(** What a run of the decoder does besides returning: the constructor calls
    (by chunk offset) and the line it logs. *)
Inductive event : Type :=
  | Construct (pos : nat)
  | LogInfo (msg : str).

(** [ContextException.add_context]: one more context string, after those
    the exception already carries. *)
Definition add_context (e : exn) (context : str) : exn :=
  match e with
  | ParseException msg ctx => ParseException msg (ctx ++ [context])
  | _ => e
  end.

(** Calling a [str] object: [TypeError], 'str' object is not callable. *)
Definition call_str (f : str) (arg : str) : result str := Raise TypeError.

(** The [while pos < len(channel_list)] loop.  [fuel] bounds the number of
    iterations; [None] is returned when it runs out. *)
Fixpoint parse_loop (fuel : nat) (channel_list : bytes) (pos : nat)
    (channels : gmap pyval Channel) (tr : list event)
    : list event * option (result (gmap pyval Channel)) :=
  if decide (pos < length channel_list) then
    match fuel with
    | O => (tr, None)
    | S fuel' =>
      let chunk := slice channel_list pos (pos + 124) in
      match __init__ (FromBytes chunk) with
      | Ok ch =>
        parse_loop fuel' channel_list (pos + 124) (<[dispno ch := ch]> channels)
          (tr ++ [Construct pos])
      | Raise (ParseException msg context as pe) =>
        (tr ++ [Construct pos],
         Some (Raise (add_context pe
           (lit "chunk starting at " ++ format_d (Z.of_nat pos) ++ lit ": " ++
            repr_bytes chunk))))
      | Raise e => (tr ++ [Construct pos], Some (Raise e))
      end
    end
  else
    (tr ++ [LogInfo (lit "Parsed " ++ format_d (Z.of_nat (size channels)) ++ lit " channels")],
     Some (Ok channels)).

(** [Channel._parse_channel_list].  The quotient [(len - 4) / 124] is taken
    where [len - 4] is a multiple of 124, so Python's true division is exact
    and is the integer quotient.  The first two raises pass a [str] as the
    context, of which [ContextException.__init__] keeps [list(context)]: its
    characters. *)
Definition _parse_channel_list (channel_list : bytes)
    : list event * option (result (gmap pyval Channel)) :=
  let len := length channel_list in
  if decide (len < 128) then
    ([], Some (Raise (ParseException
       (lit "channel list is smaller than it has to be for at least one channel (" ++
        format_d (Z.of_nat len) ++ lit " bytes (actual) vs. 128 bytes")
       (list_of_str (lit "Channel list: " ++ repr_bytes channel_list)))))
  else if decide ((len - 4) mod 124 ≠ 0) then
    ([], Some (Raise (ParseException
       (lit "channel list's size (" ++ format_d (Z.of_nat len) ++
        lit ") minus 128 (header) is not a multiple of 124 bytes")
       (list_of_str (lit "Channel list: " ++ repr_bytes channel_list)))))
  else
    let actual_channel_list_len := Z.of_nat ((len - 4) / 124) in
    match _getint channel_list 2 with
    | Raise e => ([], Some (Raise e))
    | Ok expected_channel_list_len =>
      if decide (actual_channel_list_len ≠ expected_channel_list_len) then
        (* the message and the context are juxtaposed without a comma: the
           message string is called with the context as its argument *)
        ([], Some (msg ← call_str
                     (lit "Actual channel list length ((" ++ format_d (Z.of_nat len) ++
                      lit "-4)/124=" ++ format_d actual_channel_list_len ++
                      lit ") does not equal expected channel list length (" ++
                      format_d expected_channel_list_len ++ lit ") as defined in header")
                     (lit "Channel list: " ++ repr_bytes channel_list);
                   Raise (ParseException msg [])))
      else parse_loop len channel_list 4 ∅ []
    end.

(** ** The XML reader

    [as_xml] writes a document for a collaborator that parses it, and the XML
    construction path takes the node such a parser returns.  [parseString]
    models [xml.dom.minidom.parseString] on the fragment of XML 1.0 this
    module writes: an optional XML declaration (in the spelling of [as_xml]),
    one root element, elements without attributes written as start-tag,
    content, end-tag, character data with the five predefined entity
    references.  Everything else is refused, so a document [parseString]
    accepts is well-formed. *)

Module Xml.
Section Chars.
Local Open Scope Z_scope.

(** Production [2] of XML 1.0: the characters a document may hold. *)
Definition is_xml_char (c : Z) : bool :=
  (c =? 9) || (c =? 10) || (c =? 13) || in_range 0x20 0xD7FF c ||
  in_range 0xE000 0xFFFD c || in_range 0x10000 0x10FFFF c.

(** The ASCII name characters. *)
Definition is_name_start (c : Z) : bool :=
  (c =? 58) || in_range 65 90 c || (c =? 95) || in_range 97 122 c.

Definition is_name_char (c : Z) : bool :=
  is_name_start c || (c =? 45) || (c =? 46) || in_range 48 57 c.

Definition is_space (c : Z) : bool :=
  (c =? 32) || (c =? 9) || (c =? 10) || (c =? 13).

End Chars.

Inductive token : Type :=
  | TOpen (name : str)
  | TClose (name : str)
  | TText (data : str).

(** The scanner's state.  In character data it holds the data read so far
    and the number of closing square brackets just read (the sequence of two
    of them and a greater-than sign may not occur in character data). *)
Inductive lstate : Type :=
  | LText (acc : str) (brackets : nat)
  | LTextCR (acc : str)
  | LEntity (acc : str) (ent : str)
  | LLt
  | LOpen (name : str)
  | LClose (name : str).

(** Character data is reported once, when markup ends it; empty data is not
    reported. *)
Definition flush (acc : str) : list token :=
  match acc with
  | [] => []
  | _ => [TText acc]
  end.

Definition entity_value (ent : str) : option Z :=
  if decide (ent = lit "amp") then Some 38%Z
  else if decide (ent = lit "lt") then Some 60%Z
  else if decide (ent = lit "gt") then Some 62%Z
  else if decide (ent = lit "quot") then Some 34%Z
  else if decide (ent = lit "apos") then Some 39%Z
  else None.

(** One character of character data.  Line ends are normalised: a carriage
    return, with the line feed that may follow it, is read as one line
    feed. *)
Definition text_step (acc : str) (brackets : nat) (c : Z) : option (lstate * list token) :=
  if (c =? 60)%Z then Some (LLt, flush acc)
  else if (c =? 38)%Z then Some (LEntity acc [], [])
  else if (c =? 13)%Z then Some (LTextCR (acc ++ [10%Z]), [])
  else if (c =? 93)%Z then Some (LText (acc ++ [c]) (S brackets), [])
  else if (c =? 62)%Z && (2 <=? brackets)%nat then None
  else Some (LText (acc ++ [c]) 0, []).

Definition step (st : lstate) (c : Z) : option (lstate * list token) :=
  match st with
  | LText acc k => text_step acc k c
  | LTextCR acc => if (c =? 10)%Z then Some (LText acc 0, []) else text_step acc 0 c
  | LEntity acc ent =>
    if (c =? 59)%Z then
      v ← entity_value ent; Some (LText (acc ++ [v]) 0, [])
    else if is_name_char c then Some (LEntity acc (ent ++ [c]), [])
    else None
  | LLt =>
    if (c =? 47)%Z then Some (LClose [], [])
    else if is_name_start c then Some (LOpen [c], [])
    else None
  | LOpen name =>
    if (c =? 62)%Z then Some (LText [] 0, [TOpen name])
    else if is_name_char c then Some (LOpen (name ++ [c]), [])
    else None
  | LClose name =>
    match name with
    | [] => if is_name_start c then Some (LClose [c], []) else None
    | _ =>
      if (c =? 62)%Z then Some (LText [] 0, [TClose name])
      else if is_name_char c then Some (LClose (name ++ [c]), [])
      else None
    end
  end.

(** The scanner over a run of characters: the state it ends in and the
    tokens it reports. *)
Fixpoint run (st : lstate) (s : str) : option (lstate * list token) :=
  match s with
  | [] => Some (st, [])
  | c :: r =>
    match step st c with
    | Some (st', out) =>
      match run st' r with
      | Some (st'', out') => Some (st'', out ++ out')
      | None => None
      end
    | None => None
    end
  end.

(** A document may only end in character data. *)
Definition finish (st : lstate) : option (list token) :=
  match st with
  | LText acc _ | LTextCR acc => Some (flush acc)
  | _ => None
  end.

Definition lex (s : str) : option (list token) :=
  match run (LText [] 0) s with
  | Some (st, out) =>
    match finish st with
    | Some out' => Some (out ++ out')
    | None => None
    end
  | None => None
  end.

(** The tree builder: a stack of the open elements (innermost first), each
    with the children it has so far, and the nodes closed at top level.
    Between elements at top level only white space may occur. *)
Fixpoint build (toks : list token) (stack : list (str * list node)) (top : list node)
    : option (list node) :=
  match toks with
  | [] =>
    match stack with
    | [] => Some top
    | _ => None
    end
  | TOpen name :: r => build r ((name, []) :: stack) top
  | TText data :: r =>
    match stack with
    | (name, cs) :: st => build r ((name, cs ++ [Text data]) :: st) top
    | [] => if forallb is_space data then build r [] top else None
    end
  | TClose name :: r =>
    match stack with
    | (open, cs) :: st =>
      if decide (open = name) then
        match st with
        | (parent, pcs) :: st' => build r ((parent, pcs ++ [Element open cs]) :: st') top
        | [] => build r [] (top ++ [Element open cs])
        end
      else None
    | [] => None
    end
  end.

(** [prefix] removed from the front of [s], if it is there. *)
Fixpoint strip_prefix (prefix s : str) : option str :=
  match prefix, s with
  | [], _ => Some s
  | p :: prefix', c :: s' => if (p =? c)%Z then strip_prefix prefix' s' else None
  | _ :: _, [] => None
  end.

(** [minidom.parseString]: the document node, or [None] where the parser
    raises. *)
Definition parseString (doc : str) : option node :=
  if forallb is_xml_char doc then
    let body := default doc (strip_prefix xml_declaration doc) in
    toks ← lex body;
    top ← build toks [] [];
    match top with
    | [root] => Some (Document [root])
    | _ => None
    end
  else None.

Definition well_formed (doc : str) : Prop := is_Some (parseString doc).

End Xml.

(** ** Vocabulary for the statements *)

(** The 16-bit little-endian field at [off], read without the length check
    of [_getint]; the two agree on every offset that lies inside the buffer
    ([_getint_u16]). *)
Definition u16 (buf : bytes) (off : nat) : Z :=
  (bz (nth off buf x00) + 256 * bz (nth (S off) buf x00))%Z.

Definition known_type (t : Z) : bool := ((t =? 2) || (t =? 3) || (t =? 4))%Z.

(** The two record-level [ParseException]s of [_parse_dat]. *)
Definition unknown_type_error (t : Z) : exn :=
  ParseException (lit "Unknown channel type " ++ format_d t) [].

Definition reserved_error (r : Z) : exn :=
  ParseException (lit "reserved field mismatch (" ++ format_04x r ++ lit ")") [].

(** The size error of [_parse_channel_list]. *)
Definition size_error (channel_list : bytes) : exn :=
  ParseException
    (lit "channel list is smaller than it has to be for at least one channel (" ++
     format_d (Z.of_nat (length channel_list)) ++ lit " bytes (actual) vs. 128 bytes")
    (list_of_str (lit "Channel list: " ++ repr_bytes channel_list)).

(** A record the binary constructor accepts: 124 bytes, a known type code,
    the reserved field 0xFFFF, and a display number and a title (the bytes
    from offset 24 the declared length selects) that are UTF-8. *)
Definition valid_record (r : bytes) : Prop :=
  length r = 124 ∧
  known_type (u16 r 0) = true ∧
  u16 r 10 = 0xffff%Z ∧
  is_Some (utf8_decode (slice r 12 16)) ∧
  is_Some (utf8_decode (slice r 24 (24 + Z.to_nat (u16 r 22)))).

(** [channels[ch.dispno] = ch] for each channel in turn. *)
Definition collect (chans : list Channel) (channels : gmap pyval Channel)
    : gmap pyval Channel :=
  foldl (fun m ch => <[dispno ch := ch]> m) channels chans.

(** The offsets of [n] consecutive records from [pos] on. *)
Definition offsets (pos n : nat) : list nat :=
  map (fun i => pos + 124 * i) (seq 0 n).

(** The three replacements of [escape] seen character by character. *)
Definition escape_char (c : Z) : str :=
  (if c =? 38 then lit "&amp;"
   else if c =? 62 then lit "&gt;"
   else if c =? 60 then lit "&lt;"
   else [c])%Z.

(** The document [as_xml] writes around the five field texts. *)
Definition channel_document (t a b c d : str) : str :=
  xml_declaration ++ lit "<Channel><ChType>" ++ t ++
  lit "</ChType><MajorCh>" ++ a ++
  lit "</MajorCh><MinorCh>" ++ b ++
  lit "</MinorCh><PTC>" ++ c ++
  lit "</PTC><ProgNum>" ++ d ++
  lit "</ProgNum></Channel>".

(** The character data a scanner state holds, when it is in character data. *)
Definition text_of (st : Xml.lstate) : option str :=
  match st with
  | Xml.LText acc _ | Xml.LTextCR acc => Some acc
  | _ => None
  end.

(** The child nodes character data [acc] makes: none when it is empty. *)
Definition text_nodes (acc : str) : list node :=
  match acc with
  | [] => []
  | _ => [Text acc]
  end.

(** A character that is ordinary in character data: no markup, no line-end
    handling, no square bracket. *)
Definition is_plain (c : Z) : bool :=
  negb ((c =? 60) || (c =? 38) || (c =? 13) || (c =? 93) || (c =? 62))%Z.

(** A non-empty text of ordinary XML characters, as [%d] writes. *)
Definition plain_text (s : str) : Prop :=
  s ≠ [] ∧ forallb is_plain s = true ∧ forallb Xml.is_xml_char s = true.

(** [s] is the decimal numeral of [z] with no padding: the numeral is in
    normal form (no leading zero, no sign on zero). *)
Definition unpadded_decimal (s : str) (z : Z) : Prop :=
  ∃ n : Decimal.signed_int,
    s = lit (DecimalString.NilZero.string_of_int n) ∧
    Decimal.norm n = n ∧ Z.of_int n = z.

(** The tree that document stands for. *)
Definition channel_tree (t a b c d : list node) : node :=
  Document [Element (lit "Channel")
    [Element (lit "ChType") t;
     Element (lit "MajorCh") a;
     Element (lit "MinorCh") b;
     Element (lit "PTC") c;
     Element (lit "ProgNum") d]].

(** The context string the decoder attaches to a record's error. *)
Definition chunk_context (pos : nat) (chunk : bytes) : str :=
  lit "chunk starting at " ++ format_d (Z.of_nat pos) ++ lit ": " ++ repr_bytes chunk.

(** The divisibility error of [_parse_channel_list]. *)
Definition multiple_error (channel_list : bytes) : exn :=
  ParseException
    (lit "channel list's size (" ++ format_d (Z.of_nat (length channel_list)) ++
     lit ") minus 128 (header) is not a multiple of 124 bytes")
    (list_of_str (lit "Channel list: " ++ repr_bytes channel_list)).

(** The one error of the XML construction path. *)
Definition wrong_document : exn := ParseException (lit "Wrong XML document") [].

(** The five element names the XML construction path looks up. *)
Definition field_names : list str :=
  [lit "ChType"; lit "MajorCh"; lit "MinorCh"; lit "PTC"; lit "ProgNum"].

(** A Unicode scalar value: a code point that is no surrogate. *)
Definition scalar_value (c : Z) : Prop :=
  (0 ≤ c ≤ 0x10FFFF)%Z ∧ ¬ (0xD800 ≤ c ≤ 0xDFFF)%Z.

(** ** Sample records

    The concrete scenario of the format description: type 4 (CDTV), major 7,
    minor 0, PTC 33, program 1, reserved 0xFFFF, display number "7", title
    "Tele5"; and variations of it. *)

Module Samples.

Definition u16le (z : Z) : bytes := [byte_of z; byte_of (z / 256)].

Definition ascii_bytes (s : string) : bytes :=
  map byte_of_ascii (list_ascii_of_string s).

Definition padded (n : nat) (b : bytes) : bytes := take n (b ++ replicate n x00).

(** A 124-byte record with the given field values. *)
Definition record (t major minor ptc prog reserved : Z) (disp : bytes)
    (title_len : Z) (title : bytes) : bytes :=
  u16le t ++ u16le major ++ u16le minor ++ u16le ptc ++ u16le prog ++ u16le reserved ++
  padded 4 disp ++ replicate 6 x00 ++ u16le title_len ++ padded 100 title.

Definition tele5 : bytes :=
  record 4 7 0 33 1 0xffff (ascii_bytes "7") 5 (ascii_bytes "Tele5").

Definition arte : bytes :=
  record 2 8 1 34 2 0xffff (ascii_bytes "8") 4 (ascii_bytes "arte").

(** Same display number as [tele5], other contents. *)
Definition tele5_bis : bytes :=
  record 3 9 0 35 3 0xffff (ascii_bytes "7") 3 (ascii_bytes "bis").

Definition header (n : Z) : bytes := [x00; x00] ++ u16le n.

End Samples.

(** * Properties *)

(** ** Bytes and fields *)

Lemma bz_range (b : byte) : (0 ≤ bz b < 256)%Z.
Proof.
  unfold bz. pose proof (Byte.to_N_bounded b) as H.
  split; [apply N2Z.is_nonneg | lia].
Qed.

Lemma _getint_u16 (buf : bytes) (off : nat) :
  off + 2 ≤ length buf → _getint buf off = Ok (u16 buf off).
Proof.
  intros Hlen.
  destruct (lookup_lt_is_Some_2 buf off) as [b0 H0]; [lia|].
  destruct (lookup_lt_is_Some_2 buf (S off)) as [b1 H1]; [lia|].
  unfold _getint, slice, u16.
  replace (off + 2 - off) with 2 by lia.
  rewrite (drop_S _ _ _ H0), (drop_S _ _ _ H1), !nth_lookup, H0, H1.
  reflexivity.
Qed.

Lemma u16_range (buf : bytes) (off : nat) : (0 ≤ u16 buf off < 65536)%Z.
Proof.
  unfold u16.
  pose proof (bz_range (nth off buf x00)); pose proof (bz_range (nth (S off) buf x00)).
  lia.
Qed.

Lemma _getint_Ok_u16 (buf : bytes) (off : nat) (z : Z) :
  off + 2 ≤ length buf → _getint buf off = Ok z → z = u16 buf off.
Proof. intros Hlen. rewrite _getint_u16 by done. congruence. Qed.

(** [_parse_dat] on a buffer that holds the fixed fields: the checks in the
    order the source makes them. *)
Lemma _parse_dat_fields (buf : bytes) :
  24 ≤ length buf →
  _parse_dat buf =
    if negb (known_type (u16 buf 0)) then Raise (unknown_type_error (u16 buf 0))
    else if negb (u16 buf 10 =? 0xffff)%Z then Raise (reserved_error (u16 buf 10))
    else
      match utf8_decode (slice buf 12 16) with
      | None => Raise UnicodeDecodeError
      | Some d =>
        match utf8_decode (slice buf 24 (24 + Z.to_nat (u16 buf 22))) with
        | None => Raise UnicodeDecodeError
        | Some s =>
          Ok {| ch_type := PyStr (if (u16 buf 0 =? 4)%Z then lit "CDTV"
                                  else if (u16 buf 0 =? 3)%Z then lit "CATV"
                                  else lit "DTV");
                major_ch := PyInt (u16 buf 2);
                minor_ch := PyInt (u16 buf 4);
                ptc := PyInt (u16 buf 6);
                prog_num := PyInt (u16 buf 8);
                dispno := PyStr (rstrip_nul d);
                title := PyStr s |}
        end
      end.
Proof.
  intros Hlen. unfold _parse_dat, known_type, unknown_type_error, reserved_error.
  rewrite !_getint_u16 by lia.
  cbn [mbind result_bind].
  destruct (u16 buf 0 =? 4)%Z eqn:E4; cbn [orb negb];
    [|destruct (u16 buf 0 =? 3)%Z eqn:E3; cbn [orb negb];
      [|destruct (u16 buf 0 =? 2)%Z eqn:E2; cbn [orb negb]; [|reflexivity]]];
    rewrite ?Bool.orb_true_r; cbn [negb];
    (destruct (u16 buf 10 =? 65535)%Z eqn:Er; cbn [negb];
      [|reflexivity]);
    unfold decode_utf8;
    (destruct (utf8_decode (slice buf 12 16)); [|reflexivity]);
    (destruct (utf8_decode (slice buf 24 _)); reflexivity).
Qed.

Lemma slice_insert_outside {A} (l : list A) (i a b : nat) (x : A) :
  i < a ∨ b ≤ i → slice (<[i:=x]> l) a b = slice l a b.
Proof.
  unfold slice. intros [Hlt | Hge].
  - by rewrite drop_insert_lt.
  - destruct (decide (a ≤ i)) as [Hai | Hai].
    + rewrite drop_insert_ge by done. apply take_insert_ge. lia.
    + rewrite drop_insert_lt by lia. done.
Qed.

Lemma u16_insert_ne (buf : bytes) (i off : nat) (x : byte) :
  i ≠ off → i ≠ S off → u16 (<[i:=x]> buf) off = u16 buf off.
Proof.
  intros H1 H2. unfold u16.
  by rewrite !nth_lookup, !list_lookup_insert_ne.
Qed.

(** Past the end of the record the slice is clipped: from 100 on, every
    declared length selects the same 100 bytes. *)
Lemma slice_title_clip (buf : bytes) (n : nat) :
  length buf = 124 → 100 ≤ n → slice buf 24 (24 + n) = drop 24 buf.
Proof.
  intros Hlen Hn. unfold slice.
  apply take_ge. rewrite length_drop. lia.
Qed.

(** The chunk the decoder cuts at a record's offset is that record, whatever
    precedes and follows it. *)
Lemma slice_chunk {A} (pre r post : list A) (n : nat) :
  length r = n → slice (pre ++ r ++ post) (length pre) (length pre + n) = r.
Proof.
  intros Hr. unfold slice.
  rewrite drop_app_length.
  replace (length pre + n - length pre) with (length r) by lia.
  apply take_app_length.
Qed.

(** ** The binary construction path *)

(** C6. The type code of a 124-byte record is the 16-bit little-endian
    number [t] in its first two bytes, and it decides the channel type.
    With a code other than 2, 3, 4 the construction raises the unknown-type
    error and returns no Channel.  With code 2, 3 or 4 the record is never
    refused for its type: the outcome is then settled by the rest of the
    record alone (the reserved-field error, a Channel, or a decoding error
    of the two texts), and the Channel that is returned has the type DTV for
    code 2, CATV for code 3 and CDTV for code 4. *)
Theorem C6_type_code_mapping (buf : bytes) :
  length buf = 124 →
  ∃ t : Z,
    t = (bz (nth 0 buf x00) + 256 * bz (nth 1 buf x00))%Z ∧
    _getint buf 0 = Ok t ∧
    (t ≠ 2%Z → t ≠ 3%Z → t ≠ 4%Z →
       __init__ (FromBytes buf) = Raise (unknown_type_error t)) ∧
    (∀ name : str,
       (t = 2%Z ∧ name = lit "DTV") ∨
       (t = 3%Z ∧ name = lit "CATV") ∨
       (t = 4%Z ∧ name = lit "CDTV") →
       __init__ (FromBytes buf) =
         if negb (u16 buf 10 =? 0xffff)%Z then Raise (reserved_error (u16 buf 10))
         else
           match utf8_decode (slice buf 12 16),
                 utf8_decode (slice buf 24 (24 + Z.to_nat (u16 buf 22))) with
           | Some d, Some s =>
             Ok {| ch_type := PyStr name;
                   major_ch := PyInt (u16 buf 2);
                   minor_ch := PyInt (u16 buf 4);
                   ptc := PyInt (u16 buf 6);
                   prog_num := PyInt (u16 buf 8);
                   dispno := PyStr (rstrip_nul d);
                   title := PyStr s |}
           | _, _ => Raise UnicodeDecodeError
           end) ∧
    (∀ ch, __init__ (FromBytes buf) = Ok ch →
       (t = 2%Z ∧ ch_type ch = PyStr (lit "DTV")) ∨
       (t = 3%Z ∧ ch_type ch = PyStr (lit "CATV")) ∨
       (t = 4%Z ∧ ch_type ch = PyStr (lit "CDTV"))).
Proof.
  intros Hlen. exists (u16 buf 0).
  split; [reflexivity|].
  split; [apply _getint_u16; lia|].
  cbn [__init__]. rewrite _parse_dat_fields by lia. unfold known_type.
  split; [|split].
  - intros H2 H3 H4.
    rewrite (proj2 (Z.eqb_neq _ _) H2), (proj2 (Z.eqb_neq _ _) H3),
      (proj2 (Z.eqb_neq _ _) H4).
    reflexivity.
  - intros name [[Ht ->] | [[Ht ->] | [Ht ->]]]; rewrite Ht;
      cbn [Z.eqb Pos.eqb orb negb];
      (destruct (negb (u16 buf 10 =? 65535)%Z); [reflexivity|]);
      (destruct (utf8_decode (slice buf 12 16)); [|reflexivity]);
      (destruct (utf8_decode (slice buf 24 _)); reflexivity).
  - intros ch.
    destruct (u16 buf 0 =? 2)%Z eqn:E2; destruct (u16 buf 0 =? 3)%Z eqn:E3;
      destruct (u16 buf 0 =? 4)%Z eqn:E4; cbn [orb negb];
      try apply Z.eqb_eq in E2; try apply Z.eqb_eq in E3; try apply Z.eqb_eq in E4;
      try lia; try discriminate;
      (destruct (negb _); [discriminate|]);
      (destruct (utf8_decode (slice buf 12 16)); [|discriminate]);
      (destruct (utf8_decode (slice buf 24 _)); [|discriminate]);
      intros [= <-]; cbn [ch_type]; auto.
Qed.

Lemma C6_type_code_mapping_witness :
  length Samples.tele5 = 124 ∧
  ∃ t : Z,
    t = (bz (nth 0 Samples.tele5 x00) + 256 * bz (nth 1 Samples.tele5 x00))%Z ∧
    _getint Samples.tele5 0 = Ok t ∧
    (t ≠ 2%Z → t ≠ 3%Z → t ≠ 4%Z →
       __init__ (FromBytes Samples.tele5) = Raise (unknown_type_error t)) ∧
    (∀ name : str,
       (t = 2%Z ∧ name = lit "DTV") ∨
       (t = 3%Z ∧ name = lit "CATV") ∨
       (t = 4%Z ∧ name = lit "CDTV") →
       __init__ (FromBytes Samples.tele5) =
         if negb (u16 Samples.tele5 10 =? 0xffff)%Z
         then Raise (reserved_error (u16 Samples.tele5 10))
         else
           match utf8_decode (slice Samples.tele5 12 16),
                 utf8_decode (slice Samples.tele5 24
                                (24 + Z.to_nat (u16 Samples.tele5 22))) with
           | Some d, Some s =>
             Ok {| ch_type := PyStr name;
                   major_ch := PyInt (u16 Samples.tele5 2);
                   minor_ch := PyInt (u16 Samples.tele5 4);
                   ptc := PyInt (u16 Samples.tele5 6);
                   prog_num := PyInt (u16 Samples.tele5 8);
                   dispno := PyStr (rstrip_nul d);
                   title := PyStr s |}
           | _, _ => Raise UnicodeDecodeError
           end) ∧
    (∀ ch, __init__ (FromBytes Samples.tele5) = Ok ch →
       (t = 2%Z ∧ ch_type ch = PyStr (lit "DTV")) ∨
       (t = 3%Z ∧ ch_type ch = PyStr (lit "CATV")) ∨
       (t = 4%Z ∧ ch_type ch = PyStr (lit "CDTV"))).
Proof.
  split; [reflexivity | apply (C6_type_code_mapping Samples.tele5); reflexivity].
Defined.

(** The three known codes on sample records: code 2 is constructed as DTV,
    code 3 as CATV, code 4 as CDTV; codes 1 and 5 are refused. *)
Example type_codes_on_samples :
  (ch_type <$> match __init__ (FromBytes Samples.arte) with
               | Ok ch => Some ch | Raise _ => None end) = Some (PyStr (lit "DTV")) ∧
  (ch_type <$> match __init__ (FromBytes Samples.tele5_bis) with
               | Ok ch => Some ch | Raise _ => None end) = Some (PyStr (lit "CATV")) ∧
  (ch_type <$> match __init__ (FromBytes Samples.tele5) with
               | Ok ch => Some ch | Raise _ => None end) = Some (PyStr (lit "CDTV")) ∧
  __init__ (FromBytes (Samples.record 1 7 0 33 1 0xffff (Samples.ascii_bytes "7") 5
                         (Samples.ascii_bytes "Tele5"))) = Raise (unknown_type_error 1) ∧
  __init__ (FromBytes (Samples.record 5 7 0 33 1 0xffff (Samples.ascii_bytes "7") 5
                         (Samples.ascii_bytes "Tele5"))) = Raise (unknown_type_error 5).
Proof. vm_compute. repeat split. Qed.

(** C7, as stated, fails: a record whose reserved field is 0 and whose type
    code is 1 is refused for its type code; the reserved field is never
    looked at. *)
Lemma C7_counterexample :
  let buf := Samples.record 1 7 0 33 1 0 (Samples.ascii_bytes "7") 5
               (Samples.ascii_bytes "Tele5") in
  length buf = 124 ∧
  _getint buf 10 = Ok 0%Z ∧
  __init__ (FromBytes buf) = Raise (unknown_type_error 1) ∧
  __init__ (FromBytes buf) ≠ Raise (reserved_error 0).
Proof. vm_compute. repeat split; discriminate. Qed.

(** C7, amended. A 124-byte record whose field at offset 10 is not 0xFFFF is
    never accepted, whatever its other fields hold: the construction raises
    the reserved-field-mismatch error when the type code is known, and the
    unknown-type error (raised first) when it is not. *)
Theorem C7_reserved_field (buf : bytes) (r : Z) :
  length buf = 124 →
  _getint buf 10 = Ok r →
  r ≠ 0xffff%Z →
  ∃ t : Z, _getint buf 0 = Ok t ∧
    __init__ (FromBytes buf) =
      Raise (if known_type t then reserved_error r else unknown_type_error t).
Proof.
  intros Hlen Hr Hne.
  apply _getint_Ok_u16 in Hr; [|lia]. subst r.
  exists (u16 buf 0). split; [apply _getint_u16; lia|].
  cbn [__init__]. rewrite _parse_dat_fields by lia.
  destruct (known_type (u16 buf 0)); cbn [negb]; [|reflexivity].
  by rewrite (proj2 (Z.eqb_neq _ _) Hne).
Qed.

Lemma C7_reserved_field_witness :
  let buf := Samples.record 4 7 0 33 1 0x1234 (Samples.ascii_bytes "7") 5
               (Samples.ascii_bytes "Tele5") in
  ∃ t : Z, _getint buf 0 = Ok t ∧
    __init__ (FromBytes buf) =
      Raise (if known_type t then reserved_error 0x1234 else unknown_type_error t).
Proof.
  apply (C7_reserved_field _ 0x1234); [reflexivity | reflexivity | discriminate].
Defined.

(** C2, as stated, fails: a record that declares a title of 101 bytes is
    accepted, with the 100 bytes that are there as its title. *)
Lemma C2_counterexample :
  let buf := Samples.record 4 7 0 33 1 0xffff (Samples.ascii_bytes "7") 101
               (Samples.ascii_bytes "Tele5") in
  length buf = 124 ∧
  _getint buf 22 = Ok 101%Z ∧
  __init__ (FromBytes buf) =
    Ok {| ch_type := PyStr (lit "CDTV");
          major_ch := PyInt 7; minor_ch := PyInt 0; ptc := PyInt 33; prog_num := PyInt 1;
          dispno := PyStr (lit "7");
          title := PyStr (lit "Tele5" ++ replicate 95 0%Z) |}.
Proof. vm_compute. repeat split. Qed.

(** C2, amended. The binary construction has no check of the declared title
    length.  For a 124-byte record that declares more than 100 bytes the
    slice is clipped at the end of the record: the outcome is that of the
    same record declaring exactly 100, a Channel that is returned has the
    100 bytes from offset 24 as its title, and the only errors are those of
    the type code, of the reserved field and of the UTF-8 decoding. *)
Theorem C2_title_length_clipped (buf : bytes) (n : Z) :
  length buf = 124 →
  _getint buf 22 = Ok n →
  (100 < n)%Z →
  __init__ (FromBytes buf) =
    __init__ (FromBytes (<[22 := byte_of 100]> (<[23 := x00]> buf))) ∧
  (∀ ch, __init__ (FromBytes buf) = Ok ch →
     ∃ s, utf8_decode (drop 24 buf) = Some s ∧ title ch = PyStr s) ∧
  (∀ e, __init__ (FromBytes buf) = Raise e →
     e = unknown_type_error (u16 buf 0) ∨ e = reserved_error (u16 buf 10) ∨
     e = UnicodeDecodeError).
Proof.
  intros Hlen Hn Hgt.
  apply _getint_Ok_u16 in Hn; [|lia]. subst n.
  cbn [__init__].
  rewrite !_parse_dat_fields by (rewrite ?length_insert; lia).
  rewrite !(slice_insert_outside _ _ 12 16) by lia.
  rewrite !(u16_insert_ne _ _ 0), !(u16_insert_ne _ _ 2), !(u16_insert_ne _ _ 4),
    !(u16_insert_ne _ _ 6), !(u16_insert_ne _ _ 8), !(u16_insert_ne _ _ 10) by lia.
  assert (H22 : u16 (<[22:=byte_of 100]> (<[23:=x00]> buf)) 22 = 100%Z).
  { unfold u16. rewrite !nth_lookup.
    rewrite list_lookup_insert_eq by (rewrite length_insert; lia).
    rewrite list_lookup_insert_ne by lia.
    rewrite list_lookup_insert_eq by lia. reflexivity. }
  rewrite H22.
  rewrite (slice_title_clip buf) by lia.
  rewrite (slice_title_clip (<[22:=byte_of 100]> (<[23:=x00]> buf)))
    by (rewrite ?length_insert; lia).
  rewrite !drop_insert_lt by lia.
  split; [reflexivity|].
  destruct (negb (known_type _)); [split; [discriminate | intros e [= <-]; auto]|].
  destruct (negb (_ =? _)%Z); [split; [discriminate | intros e [= <-]; auto]|].
  destruct (utf8_decode (slice buf 12 16));
    [|split; [discriminate | intros e [= <-]; auto]].
  destruct (utf8_decode (drop 24 buf)) as [s|];
    [|split; [discriminate | intros e [= <-]; auto]].
  split; [|discriminate].
  intros ch [= <-]. by exists s.
Qed.

Lemma C2_title_length_clipped_witness :
  let buf := Samples.record 4 7 0 33 1 0xffff (Samples.ascii_bytes "7") 101
               (Samples.ascii_bytes "Tele5") in
  __init__ (FromBytes buf) =
    __init__ (FromBytes (<[22 := byte_of 100]> (<[23 := x00]> buf))) ∧
  (∀ ch, __init__ (FromBytes buf) = Ok ch →
     ∃ s, utf8_decode (drop 24 buf) = Some s ∧ title ch = PyStr s) ∧
  (∀ e, __init__ (FromBytes buf) = Raise e →
     e = unknown_type_error (u16 buf 0) ∨ e = reserved_error (u16 buf 10) ∨
     e = UnicodeDecodeError).
Proof.
  apply (C2_title_length_clipped _ 101); [reflexivity | reflexivity | reflexivity].
Defined.

(** C10. A 124-byte record with a known type code and the reserved field
    0xFFFF: the title is read from the record's own bytes after offset 24
    and from nothing else.  The declared length selects a prefix of those
    100 bytes; a declared length above 100 selects all of them, silently,
    and the construction succeeds exactly when they and the four
    display-number bytes are UTF-8.  The chunk the decoder hands to the
    constructor is the record itself, whatever follows it in the buffer. *)
Theorem C10_title_truncated (buf : bytes) (t n : Z) :
  length buf = 124 →
  _getint buf 0 = Ok t →
  known_type t = true →
  _getint buf 10 = Ok 0xffff%Z →
  _getint buf 22 = Ok n →
  slice buf 24 (24 + Z.to_nat n) = take (Z.to_nat n) (drop 24 buf) ∧
  length (drop 24 buf) = 100 ∧
  (∀ pre post : bytes,
     slice (pre ++ buf ++ post) (length pre) (length pre + 124) = buf) ∧
  ((100 < n)%Z →
     slice buf 24 (24 + Z.to_nat n) = drop 24 buf ∧
     __init__ (FromBytes buf) =
       match utf8_decode (slice buf 12 16), utf8_decode (drop 24 buf) with
       | Some d, Some s =>
         Ok {| ch_type := PyStr (if (t =? 4)%Z then lit "CDTV"
                                 else if (t =? 3)%Z then lit "CATV" else lit "DTV");
               major_ch := PyInt (u16 buf 2);
               minor_ch := PyInt (u16 buf 4);
               ptc := PyInt (u16 buf 6);
               prog_num := PyInt (u16 buf 8);
               dispno := PyStr (rstrip_nul d);
               title := PyStr s |}
       | _, _ => Raise UnicodeDecodeError
       end).
Proof.
  intros Hlen Ht Hk Hr Hn.
  apply _getint_Ok_u16 in Ht; [|lia].
  apply _getint_Ok_u16 in Hr; [|lia].
  apply _getint_Ok_u16 in Hn; [|lia].
  subst t n.
  split; [unfold slice; f_equal; lia|].
  split; [rewrite length_drop; lia|].
  split; [intros pre post; by apply slice_chunk|].
  intros Hgt.
  assert (Hclip : slice buf 24 (24 + Z.to_nat (u16 buf 22)) = drop 24 buf)
    by (apply slice_title_clip; lia).
  split; [exact Hclip|].
  cbn [__init__]. rewrite _parse_dat_fields by lia.
  rewrite Hk, <- Hr, Hclip. cbn [negb Z.eqb Pos.eqb].
  destruct (utf8_decode (slice buf 12 16)); [|reflexivity].
  destruct (utf8_decode (drop 24 buf)); reflexivity.
Qed.

Lemma C10_title_truncated_witness :
  let buf := Samples.record 3 7 0 33 1 0xffff (Samples.ascii_bytes "7") 65535
               (Samples.ascii_bytes "Tele5") in
  slice buf 24 (24 + Z.to_nat 65535) = take (Z.to_nat 65535) (drop 24 buf) ∧
  length (drop 24 buf) = 100 ∧
  (∀ pre post : bytes,
     slice (pre ++ buf ++ post) (length pre) (length pre + 124) = buf) ∧
  ((100 < 65535)%Z →
     slice buf 24 (24 + Z.to_nat 65535) = drop 24 buf ∧
     __init__ (FromBytes buf) =
       match utf8_decode (slice buf 12 16), utf8_decode (drop 24 buf) with
       | Some d, Some s =>
         Ok {| ch_type := PyStr (if (3 =? 4)%Z then lit "CDTV"
                                 else if (3 =? 3)%Z then lit "CATV" else lit "DTV");
               major_ch := PyInt (u16 buf 2);
               minor_ch := PyInt (u16 buf 4);
               ptc := PyInt (u16 buf 6);
               prog_num := PyInt (u16 buf 8);
               dispno := PyStr (rstrip_nul d);
               title := PyStr s |}
       | _, _ => Raise UnicodeDecodeError
       end).
Proof.
  apply (C10_title_truncated _ 3 65535); reflexivity.
Defined.

(** ** The decoder *)

(** C8. A buffer of fewer than 128 bytes is refused whatever it holds: the
    decoder raises the size error, whose message gives the actual length and
    the 128 bytes required, and calls the record constructor not once. *)
Theorem C8_short_buffer (channel_list : bytes) :
  length channel_list < 128 →
  _parse_channel_list channel_list = ([], Some (Raise (size_error channel_list))).
Proof.
  intros Hlen. unfold _parse_channel_list, size_error.
  destruct (decide (length channel_list < 128)); [reflexivity | contradiction].
Qed.

Lemma C8_short_buffer_witness :
  _parse_channel_list (take 127 (Samples.header 1 ++ Samples.tele5)) =
    ([], Some (Raise (size_error (take 127 (Samples.header 1 ++ Samples.tele5))))).
Proof.
  apply (C8_short_buffer (take 127 (Samples.header 1 ++ Samples.tele5))).
  vm_compute. lia.
Defined.

(** The count check.  On a buffer that passes the size and the divisibility
    checks and whose header count differs from the number of records, the
    [raise] statement does not get to build its [ParseException]: the
    message, followed by the parenthesised context with no comma between
    them, is a call of a [str], and that raises [TypeError]. *)
Lemma count_mismatch_raises_TypeError (channel_list : bytes) (n : Z) :
  128 ≤ length channel_list →
  (length channel_list - 4) mod 124 = 0 →
  _getint channel_list 2 = Ok n →
  n ≠ Z.of_nat ((length channel_list - 4) / 124) →
  _parse_channel_list channel_list = ([], Some (Raise TypeError)).
Proof.
  intros Hlen Hmod Hn Hne. unfold _parse_channel_list.
  destruct (decide (length channel_list < 128)); [lia|].
  destruct (decide ((length channel_list - 4) mod 124 ≠ 0)); [contradiction|].
  rewrite Hn.
  destruct (decide (_ ≠ n)) as [_ | Heq]; [reflexivity|].
  exfalso. apply Hne. by destruct (decide (Z.of_nat ((length channel_list - 4) / 124) = n)).
Qed.

(** C1, on the code. The buffer of one valid record whose header declares
    two: the decoder raises [TypeError] and no count-mismatch
    [ParseException] reporting the two values. *)
Theorem C1_count_mismatch_on_code :
  let channel_list := Samples.header 2 ++ Samples.tele5 in
  length channel_list = 128 ∧
  _getint channel_list 2 = Ok 2%Z ∧
  _parse_channel_list channel_list = ([], Some (Raise TypeError)).
Proof. vm_compute. repeat split. Qed.

(** The loop ends within the fuel [_parse_channel_list] gives it. *)
Lemma parse_loop_total (fuel : nat) (channel_list : bytes) (pos : nat)
    (channels : gmap pyval Channel) (tr : list event) :
  length channel_list ≤ pos + fuel →
  (parse_loop fuel channel_list pos channels tr).2 ≠ None.
Proof.
  revert pos channels tr.
  induction fuel as [|fuel IH]; intros pos channels tr Hlen; cbn [parse_loop].
  - destruct (decide (pos < length channel_list)); [lia | discriminate].
  - destruct (decide (pos < length channel_list)); [|discriminate].
    destruct (__init__ _) as [ch | [] ]; try discriminate.
    apply IH. lia.
Qed.

Theorem _parse_channel_list_total (channel_list : bytes) :
  (_parse_channel_list channel_list).2 ≠ None.
Proof.
  unfold _parse_channel_list.
  destruct (decide (length channel_list < 128)); [discriminate|].
  destruct (decide (_ ≠ 0)); [discriminate|].
  destruct (_getint channel_list 2); [|discriminate].
  destruct (decide (_ ≠ _)); [discriminate|].
  apply parse_loop_total. lia.
Qed.

Lemma offsets_S (pos n : nat) : offsets pos (S n) = pos :: offsets (pos + 124) n.
Proof.
  unfold offsets. cbn [seq map]. f_equal; [lia|].
  rewrite <- seq_shift, map_map. apply map_ext. intros i. lia.
Qed.

(** The loop over a run of records the constructor accepts: one constructor
    call per record, in buffer order, each Channel stored under its display
    number. *)
Lemma parse_loop_records (recs : list bytes) (chans : list Channel) :
  Forall2 (fun r ch => length r = 124 ∧ __init__ (FromBytes r) = Ok ch) recs chans →
  ∀ (fuel : nat) (pre : bytes) (channels : gmap pyval Channel) (tr : list event),
    length recs ≤ fuel →
    parse_loop fuel (pre ++ concat recs) (length pre) channels tr =
      (tr ++ map Construct (offsets (length pre) (length recs)) ++
         [LogInfo (lit "Parsed " ++
                   format_d (Z.of_nat (size (collect chans channels))) ++
                   lit " channels")],
       Some (Ok (collect chans channels))).
Proof.
  induction 1 as [|r ch recs chans [Hr Hch] _ IH]; intros fuel pre channels tr Hfuel.
  - cbn [concat]. rewrite app_nil_r.
    destruct fuel; cbn [parse_loop];
      (destruct (decide (length pre < length pre)); [lia | reflexivity]).
  - destruct fuel as [|fuel]; [cbn in Hfuel; lia|].
    cbn [concat parse_loop].
    destruct (decide (length pre < length (pre ++ r ++ concat recs))) as [_ | Hge];
      [|rewrite !length_app in Hge; lia].
    rewrite (slice_chunk pre r (concat recs) 124 Hr), Hch.
    specialize (IH fuel (pre ++ r) (<[dispno ch := ch]> channels) (tr ++ [Construct (length pre)])).
    rewrite <- (assoc_L (++)) in IH.
    replace (length (pre ++ r)) with (length pre + 124) in IH by (rewrite length_app; lia).
    rewrite IH by (cbn in Hfuel; lia).
    cbn [length]. rewrite offsets_S. cbn [map collect foldl].
    by rewrite <- (assoc_L (++)).
Qed.

Lemma valid_record_init (r : bytes) :
  valid_record r → ∃ ch, __init__ (FromBytes r) = Ok ch.
Proof.
  intros (Hlen & Ht & Hr & [d Hd] & [s Hs]).
  cbn [__init__]. rewrite _parse_dat_fields by lia.
  rewrite Ht, Hr, Hd, Hs. cbn [negb Z.eqb Pos.eqb]. eauto.
Qed.

Lemma init_valid_record (r : bytes) (ch : Channel) :
  length r = 124 → __init__ (FromBytes r) = Ok ch → valid_record r.
Proof.
  intros Hlen. cbn [__init__]. rewrite _parse_dat_fields by lia.
  destruct (known_type (u16 r 0)) eqn:Ht; cbn [negb]; [|discriminate].
  destruct (u16 r 10 =? 65535)%Z eqn:Hr; cbn [negb]; [|discriminate].
  destruct (utf8_decode (slice r 12 16)) eqn:Hd; [|discriminate].
  destruct (utf8_decode (slice r 24 _)) eqn:Hs; [|discriminate].
  intros _. apply Z.eqb_eq in Hr. unfold valid_record. rewrite Hd, Hs. eauto.
Qed.

Lemma length_concat_records (recs : list bytes) :
  Forall (fun r => length r = 124) recs → length (concat recs) = 124 * length recs.
Proof.
  induction 1 as [|r recs Hr _ IH]; [reflexivity|].
  cbn [concat length]. rewrite length_app, Hr, IH. lia.
Qed.

(** *** The collection: last write wins *)

Lemma collect_lookup (chans : list Channel) (channels : gmap pyval Channel) (k : pyval) :
  collect chans channels !! k =
    match last (filter (fun ch => dispno ch = k) chans) with
    | Some ch => Some ch
    | None => channels !! k
    end.
Proof.
  revert channels. induction chans as [|ch chans IH]; intros channels; [reflexivity|].
  change (collect (ch :: chans) channels) with (collect chans (<[dispno ch := ch]> channels)).
  rewrite IH. destruct (decide (dispno ch = k)) as [Heq | Hne].
  - rewrite filter_cons_True by done.
    destruct (filter _ chans) as [|c cs] eqn:Hf; cbn [last].
    + by rewrite Heq, lookup_insert_eq.
    + destruct (last (c :: cs)) eqn:Hl; [reflexivity|].
      by apply last_None in Hl.
  - rewrite filter_cons_False by done.
    destruct (last _); [reflexivity|]. by rewrite lookup_insert_ne.
Qed.

Lemma collect_dom (chans : list Channel) (channels : gmap pyval Channel) :
  dom (collect chans channels) = dom channels ∪ list_to_set (dispno <$> chans).
Proof.
  revert channels. induction chans as [|ch chans IH]; intros channels.
  - cbn. set_solver.
  - change (collect (ch :: chans) channels) with (collect chans (<[dispno ch := ch]> channels)).
    rewrite IH, dom_insert_L. cbn [fmap list_fmap list_to_set]. set_solver.
Qed.

Lemma size_list_to_set_le (l : list pyval) :
  size (list_to_set l : gset pyval) ≤ length l ∧
  (size (list_to_set l : gset pyval) = length l ↔ NoDup l).
Proof.
  induction l as [|x l [IHle IHeq]].
  - cbn. rewrite size_empty. split; [lia|]. split; [constructor | done].
  - cbn [list_to_set length].
    destruct (decide (x ∈ l)) as [Hin | Hnin].
    + replace ({[x]} ∪ list_to_set l : gset pyval) with (list_to_set l : gset pyval)
        by set_solver.
      split; [lia|]. split; [lia|].
      intros Hnd. apply NoDup_cons in Hnd as [Hx _]. contradiction.
    + rewrite size_union by set_solver. rewrite size_singleton.
      split; [lia|]. rewrite NoDup_cons. split.
      * intros Hs. split; [done|]. apply IHeq. lia.
      * intros [_ Hnd]. apply IHeq in Hnd. lia.
Qed.

Lemma collect_size (chans : list Channel) :
  size (collect chans ∅) ≤ length chans ∧
  (size (collect chans ∅) = length chans ↔ NoDup (dispno <$> chans)).
Proof.
  rewrite <- size_dom, collect_dom, dom_empty_L, (left_id_L ∅ (∪)).
  rewrite <- (length_fmap dispno chans). apply size_list_to_set_le.
Qed.

(** C4, as stated, fails for the empty list: a 4-byte header that declares
    no record, followed by no record, is refused for its size. *)
Lemma C4_counterexample :
  let header : bytes := [x00; x00; x00; x00] in
  let recs : list bytes := [] in
  length header = 4 ∧
  _getint header 2 = Ok (Z.of_nat (length recs)) ∧
  Forall valid_record recs ∧
  _parse_channel_list (header ++ concat recs) =
    ([], Some (Raise (size_error (header ++ concat recs)))).
Proof. cbn zeta. repeat split. constructor. Qed.

(** C4, amended. A 4-byte header whose count is [N >= 1], followed by
    exactly [N] records the binary constructor accepts: the decoder
    constructs one Channel per record, in buffer order, and returns them
    keyed by display number.  Under each key is the last Channel in buffer
    order that has this display number; the collection has at most [N]
    entries, and exactly [N] when no two records share a display number. *)
Theorem C4_decode_valid_buffer (header : bytes) (recs : list bytes) :
  length header = 4 →
  _getint header 2 = Ok (Z.of_nat (length recs)) →
  1 ≤ length recs →
  Forall valid_record recs →
  ∃ chans : list Channel,
    Forall2 (fun r ch => __init__ (FromBytes r) = Ok ch) recs chans ∧
    _parse_channel_list (header ++ concat recs) =
      (map Construct (offsets 4 (length recs)) ++
         [LogInfo (lit "Parsed " ++ format_d (Z.of_nat (size (collect chans ∅))) ++
                   lit " channels")],
       Some (Ok (collect chans ∅))) ∧
    (∀ k, collect chans ∅ !! k = last (filter (fun ch => dispno ch = k) chans)) ∧
    size (collect chans ∅) ≤ length recs ∧
    (size (collect chans ∅) = length recs ↔ NoDup (dispno <$> chans)).
Proof.
  intros Hh Hn Hpos Hvalid.
  assert (Hcons : ∃ chans,
    Forall2 (fun r ch => length r = 124 ∧ __init__ (FromBytes r) = Ok ch) recs chans).
  { clear Hn Hpos. induction Hvalid as [|r recs Hr _ [chans IH]].
    - exists []. constructor.
    - destruct (valid_record_init r Hr) as [ch Hch].
      exists (ch :: chans). constructor; [|done]. split; [apply Hr | done]. }
  destruct Hcons as [chans Hcons]. exists chans.
  assert (Hlenc : length chans = length recs) by (symmetry; eapply Forall2_length; eauto).
  assert (Hlen : length (header ++ concat recs) = 4 + 124 * length recs).
  { rewrite length_app, Hh, length_concat_records; [done|].
    eapply Forall_impl; [exact Hvalid|]. intros r Hr. apply Hr. }
  split; [eapply Forall2_impl; [exact Hcons|]; by intros r ch [_ ?]|].
  split.
  - unfold _parse_channel_list. rewrite Hlen.
    destruct (decide (4 + 124 * length recs < 128)); [lia|].
    replace (4 + 124 * length recs - 4) with (length recs * 124) by lia.
    rewrite Nat.Div0.mod_mul, Nat.div_mul by lia.
    destruct (decide (0 ≠ 0)); [done|].
    assert (Hget : _getint (header ++ concat recs) 2 = _getint header 2).
    { do 4 (destruct header as [|? header]; [discriminate Hh|]). reflexivity. }
    rewrite Hget, Hn.
    destruct (decide (Z.of_nat (length recs) ≠ Z.of_nat (length recs))); [done|].
    pose proof (parse_loop_records recs chans Hcons (4 + 124 * length recs) header ∅ [])
      as Hloop.
    rewrite Hh in Hloop. rewrite Hloop by lia. reflexivity.
  - split.
    + intros k. rewrite collect_lookup, lookup_empty. by destruct (last _).
    + rewrite <- Hlenc. apply collect_size.
Qed.

Lemma C4_decode_valid_buffer_witness :
  let header := Samples.header 3 in
  let recs := [Samples.tele5; Samples.arte; Samples.tele5_bis] in
  ∃ chans : list Channel,
    Forall2 (fun r ch => __init__ (FromBytes r) = Ok ch) recs chans ∧
    _parse_channel_list (header ++ concat recs) =
      (map Construct (offsets 4 (length recs)) ++
         [LogInfo (lit "Parsed " ++ format_d (Z.of_nat (size (collect chans ∅))) ++
                   lit " channels")],
       Some (Ok (collect chans ∅))) ∧
    (∀ k, collect chans ∅ !! k = last (filter (fun ch => dispno ch = k) chans)) ∧
    size (collect chans ∅) ≤ length recs ∧
    (size (collect chans ∅) = length recs ↔ NoDup (dispno <$> chans)).
Proof.
  apply (C4_decode_valid_buffer (Samples.header 3)
           [Samples.tele5; Samples.arte; Samples.tele5_bis]).
  - reflexivity.
  - reflexivity.
  - cbn. lia.
  - repeat constructor; vm_compute; eauto.
Defined.

(** The three records of the witness: two share the display number 7, and
    the later one is what the collection holds under it. *)
Example decode_last_write_wins :
  ∃ m, _parse_channel_list
         (Samples.header 3 ++ Samples.tele5 ++ Samples.arte ++ Samples.tele5_bis) =
         ([Construct 4; Construct 128; Construct 252;
           LogInfo (lit "Parsed 2 channels")], Some (Ok m)) ∧
       size m = 2 ∧
       (title <$> m !! PyStr (lit "7")) = Some (PyStr (lit "bis")) ∧
       (title <$> m !! PyStr (lit "8")) = Some (PyStr (lit "arte")).
Proof. eexists. split; [vm_compute; reflexivity|]. vm_compute. repeat split. Qed.

(** The concrete scenario of the format description. *)
Example decode_tele5 :
  ∃ m, _parse_channel_list (Samples.header 1 ++ Samples.tele5) =
         ([Construct 4; LogInfo (lit "Parsed 1 channels")], Some (Ok m)) ∧
       m !! PyStr (lit "7") =
         Some {| ch_type := PyStr (lit "CDTV");
                 major_ch := PyInt 7; minor_ch := PyInt 0; ptc := PyInt 33;
                 prog_num := PyInt 1;
                 dispno := PyStr (lit "7"); title := PyStr (lit "Tele5") |} ∧
       size m = 1.
Proof. eexists. split; [vm_compute; reflexivity|]. vm_compute. repeat split. Qed.

(** ** The XML reader on the documents of [as_xml] *)

Section Reader.
Import Xml.

Lemma run_app (st : lstate) (a b : str) :
  run st (a ++ b) =
    match run st a with
    | Some (st', out) =>
      match run st' b with
      | Some (st'', out') => Some (st'', out ++ out')
      | None => None
      end
    | None => None
    end.
Proof.
  revert st. induction a as [|c a IH]; intros st; cbn [app run].
  - by destruct (run st b) as [[? ?]|].
  - destruct (step st c) as [[st1 o1]|]; [|reflexivity].
    rewrite IH. destruct (run st1 a) as [[st2 o2]|]; [|reflexivity].
    destruct (run st2 b) as [[st3 o3]|]; [|reflexivity].
    by rewrite (assoc_L (++)).
Qed.

Lemma text_step_plain (acc : str) (k : nat) (c : Z) :
  is_plain c = true → text_step acc k c = Some (LText (acc ++ [c]) 0, []).
Proof.
  unfold is_plain, text_step. intros H.
  apply negb_true_iff in H.
  repeat (apply orb_false_iff in H; destruct H as [H ?]).
  by repeat match goal with E : (_ =? _)%Z = false |- _ => rewrite E; clear E end.
Qed.

Lemma run_cons (st : lstate) (c : Z) (r : str) :
  run st (c :: r) =
    match step st c with
    | Some (st', out) =>
      match run st' r with
      | Some (st'', out') => Some (st'', out ++ out')
      | None => None
      end
    | None => None
    end.
Proof. reflexivity. Qed.

Lemma run_plain (s : str) (c : Z) (acc : str) (k : nat) :
  forallb is_plain (c :: s) = true →
  run (LText acc k) (c :: s) = Some (LText (acc ++ c :: s) 0, []).
Proof.
  revert c acc k. induction s as [|c' s IH]; intros c acc k H;
    cbn [forallb] in H; apply andb_true_iff in H as [Hc Hs];
    rewrite run_cons; cbn [step]; rewrite text_step_plain by done.
  - reflexivity.
  - rewrite IH by done. by rewrite <- (assoc_L (++)).
Qed.

(** Markup after character data: the data is reported, and the scanner goes
    on as it does from the empty state. *)
Lemma run_markup (st : lstate) (acc : str) (seg : str) :
  text_of st = Some acc →
  run st (60%Z :: seg) =
    match run (LText [] 0) (60%Z :: seg) with
    | Some (st', out) => Some (st', flush acc ++ out)
    | None => None
    end.
Proof.
  intros Hst. destruct st; try discriminate; injection Hst as ->;
    cbn [run step text_step Z.eqb Pos.eqb flush app];
    by destruct (run LLt seg) as [[? ?]|].
Qed.

Lemma run_escape_char (c : Z) (st : lstate) (acc : str) :
  text_of st = Some acc →
  ∃ st' acc', run st (escape_char c) = Some (st', []) ∧ text_of st' = Some acc'.
Proof.
  intros Hst. unfold escape_char.
  destruct (c =? 38)%Z eqn:E38;
    [destruct st; try discriminate; eexists _, _; split; reflexivity|].
  destruct (c =? 62)%Z eqn:E62;
    [destruct st; try discriminate; eexists _, _; split; reflexivity|].
  destruct (c =? 60)%Z eqn:E60;
    [destruct st; try discriminate; eexists _, _; split; reflexivity|].
  assert (Hts : ∀ a k, ∃ st' acc',
            text_step a k c = Some (st', []) ∧ text_of st' = Some acc').
  { intros a k. unfold text_step. rewrite E60, E38, E62. cbn [andb].
    destruct (c =? 13)%Z; [eexists _, _; split; reflexivity|].
    destruct (c =? 93)%Z; eexists _, _; split; reflexivity. }
  destruct st as [a k | a | | | |]; try discriminate; cbn [run step].
  - destruct (Hts a k) as (st' & acc' & -> & Hst'). eauto.
  - destruct (c =? 10)%Z; [eexists _, _; split; reflexivity|].
    destruct (Hts a 0) as (st' & acc' & -> & Hst'). eauto.
Qed.

Lemma run_escaped (t : str) (st : lstate) (acc : str) :
  text_of st = Some acc →
  ∃ st' acc', run st (flat_map escape_char t) = Some (st', []) ∧ text_of st' = Some acc'.
Proof.
  revert st acc. induction t as [|c t IH]; intros st acc Hst.
  - eexists _, _. split; [reflexivity | exact Hst].
  - cbn [flat_map]. rewrite run_app.
    destruct (run_escape_char c st acc Hst) as (st1 & acc1 & -> & Hst1).
    destruct (IH st1 acc1 Hst1) as (st2 & acc2 & -> & Hst2).
    eauto.
Qed.

Lemma strip_prefix_app (p s : str) : strip_prefix p (p ++ s) = Some s.
Proof.
  induction p as [|c p IH]; cbn [strip_prefix app]; [by destruct s|].
  by rewrite Z.eqb_refl.
Qed.

Lemma flush_cons (c : Z) (s : str) : flush (c :: s) = [TText (c :: s)].
Proof. reflexivity. Qed.

(** The document of [as_xml] around a first text the scanner reads as
    character data and four plain texts: it is read as the Channel tree. *)
Lemma parse_channel_document (tt a b c d : str) (st : lstate) (acc : str) :
  run (LText [] 0) tt = Some (st, []) →
  text_of st = Some acc →
  forallb is_xml_char tt = true →
  plain_text a → plain_text b → plain_text c → plain_text d →
  parseString (channel_document tt a b c d) =
    Some (channel_tree (text_nodes acc) [Text a] [Text b] [Text c] [Text d]).
Proof.
  intros Htt Hst Hxt (Ha0 & Hpa & Hxa) (Hb0 & Hpb & Hxb) (Hc0 & Hpc & Hxc) (Hd0 & Hpd & Hxd).
  unfold parseString, channel_document.
  rewrite !forallb_app, Hxt, Hxa, Hxb, Hxc, Hxd.
  replace (forallb is_xml_char xml_declaration) with true by reflexivity.
  replace (forallb is_xml_char (lit "<Channel><ChType>")) with true by reflexivity.
  replace (forallb is_xml_char (lit "</ChType><MajorCh>")) with true by reflexivity.
  replace (forallb is_xml_char (lit "</MajorCh><MinorCh>")) with true by reflexivity.
  replace (forallb is_xml_char (lit "</MinorCh><PTC>")) with true by reflexivity.
  replace (forallb is_xml_char (lit "</PTC><ProgNum>")) with true by reflexivity.
  replace (forallb is_xml_char (lit "</ProgNum></Channel>")) with true by reflexivity.
  cbn [andb]. rewrite strip_prefix_app. cbn [default].
  destruct a as [|a0 a]; [done|]. destruct b as [|b0 b]; [done|].
  destruct c as [|c0 c]; [done|]. destruct d as [|d0 d]; [done|].
  unfold lex, id.
  rewrite run_app.
  replace (run (LText [] 0) (lit "<Channel><ChType>"))
    with (Some (LText [] 0, [TOpen (lit "Channel"); TOpen (lit "ChType")])) by reflexivity.
  rewrite run_app, Htt.
  rewrite run_app.
  change (lit "</ChType><MajorCh>") with (60%Z :: tl (lit "</ChType><MajorCh>")).
  rewrite (run_markup st acc _ Hst).
  replace (run (LText [] 0) (60%Z :: tl (lit "</ChType><MajorCh>")))
    with (Some (LText [] 0, [TClose (lit "ChType"); TOpen (lit "MajorCh")])) by reflexivity.
  rewrite run_app, (run_plain a a0 [] 0 Hpa).
  rewrite run_app.
  change (lit "</MajorCh><MinorCh>") with (60%Z :: tl (lit "</MajorCh><MinorCh>")).
  rewrite (run_markup (LText ([] ++ a0 :: a) 0) ([] ++ a0 :: a) _ eq_refl).
  replace (run (LText [] 0) (60%Z :: tl (lit "</MajorCh><MinorCh>")))
    with (Some (LText [] 0, [TClose (lit "MajorCh"); TOpen (lit "MinorCh")])) by reflexivity.
  rewrite run_app, (run_plain b b0 [] 0 Hpb).
  rewrite run_app.
  change (lit "</MinorCh><PTC>") with (60%Z :: tl (lit "</MinorCh><PTC>")).
  rewrite (run_markup (LText ([] ++ b0 :: b) 0) ([] ++ b0 :: b) _ eq_refl).
  replace (run (LText [] 0) (60%Z :: tl (lit "</MinorCh><PTC>")))
    with (Some (LText [] 0, [TClose (lit "MinorCh"); TOpen (lit "PTC")])) by reflexivity.
  rewrite run_app, (run_plain c c0 [] 0 Hpc).
  rewrite run_app.
  change (lit "</PTC><ProgNum>") with (60%Z :: tl (lit "</PTC><ProgNum>")).
  rewrite (run_markup (LText ([] ++ c0 :: c) 0) ([] ++ c0 :: c) _ eq_refl).
  replace (run (LText [] 0) (60%Z :: tl (lit "</PTC><ProgNum>")))
    with (Some (LText [] 0, [TClose (lit "PTC"); TOpen (lit "ProgNum")])) by reflexivity.
  rewrite run_app, (run_plain d d0 [] 0 Hpd).
  change (lit "</ProgNum></Channel>") with (60%Z :: tl (lit "</ProgNum></Channel>")).
  rewrite (run_markup (LText ([] ++ d0 :: d) 0) ([] ++ d0 :: d) _ eq_refl).
  replace (run (LText [] 0) (60%Z :: tl (lit "</ProgNum></Channel>")))
    with (Some (LText [] 0, [TClose (lit "ProgNum"); TClose (lit "Channel")])) by reflexivity.
  destruct acc as [|t0 acc]; reflexivity.
Qed.

End Reader.

(** ** [%d] and [escape] *)

Lemma lit_String (a : ascii) (s : string) :
  lit (String a s) = Z.of_N (N_of_ascii a) :: lit s.
Proof. reflexivity. Qed.

Lemma uint_digits (u : Decimal.uint) :
  forallb (fun c => is_plain c && Xml.is_xml_char c)
    (lit (DecimalString.NilEmpty.string_of_uint u)) = true.
Proof.
  induction u; cbn [DecimalString.NilEmpty.string_of_uint]; [reflexivity|..];
    rewrite lit_String; cbn [forallb]; rewrite IHu; reflexivity.
Qed.

Lemma uint_nilzero_digits (u : Decimal.uint) :
  forallb (fun c => is_plain c && Xml.is_xml_char c)
    (lit (DecimalString.NilZero.string_of_uint u)) = true.
Proof.
  destruct u; [reflexivity|..]; apply (uint_digits (_ u)).
Qed.

Lemma uint_nilzero_nonempty (u : Decimal.uint) :
  lit (DecimalString.NilZero.string_of_uint u) ≠ [].
Proof. destruct u; discriminate. Qed.

Lemma forallb_both {A} (f g : A → bool) (l : list A) :
  forallb (fun x => f x && g x) l = true → forallb f l = true ∧ forallb g l = true.
Proof.
  induction l as [|x l IH]; cbn [forallb]; [done|].
  intros H. apply andb_true_iff in H as [Hx Hl]. apply andb_true_iff in Hx as [Hf Hg].
  destruct (IH Hl) as [-> ->]. by rewrite Hf, Hg.
Qed.

(** What [%d] writes is never empty and holds digits and the minus sign
    only: ordinary characters of XML character data. *)
Lemma format_d_plain (z : Z) : plain_text (format_d z).
Proof.
  unfold plain_text, format_d.
  destruct (Z.to_int z) as [u | u]; cbn [DecimalString.NilZero.string_of_int].
  - split; [apply uint_nilzero_nonempty|].
    apply forallb_both, uint_nilzero_digits.
  - rewrite lit_String. split; [discriminate|].
    destruct (forallb_both _ _ _ (uint_nilzero_digits u)) as [Hp Hx].
    cbn [forallb]. rewrite Hp, Hx. split; reflexivity.
Qed.

(** What [%d] writes is the decimal numeral of the number, in normal form. *)
Lemma format_d_unpadded (z : Z) : unpadded_decimal (format_d z) z.
Proof.
  exists (Z.to_int z). split; [reflexivity|]. split; [|apply DecimalZ.of_to].
  rewrite <- DecimalZ.to_of, DecimalZ.of_to. reflexivity.
Qed.

(** [escape] replaces each character by itself or by its entity reference. *)
Lemma escape_flat_map (t : str) : escape (PyStr t) = Ok (flat_map escape_char t).
Proof.
  unfold escape, replace_char. f_equal.
  induction t as [|c t IH]; [reflexivity|].
  cbn [flat_map]. rewrite !flat_map_app, IH. f_equal.
  unfold escape_char.
  destruct (c =? 38)%Z eqn:E38; [reflexivity|].
  cbn [flat_map app]. destruct (c =? 62)%Z eqn:E62; [reflexivity|].
  cbn [flat_map app]. rewrite app_nil_r. destruct (c =? 60)%Z; reflexivity.
Qed.

Lemma escape_char_xml (c : Z) :
  Xml.is_xml_char c = true → forallb Xml.is_xml_char (escape_char c) = true.
Proof.
  intros Hc. unfold escape_char.
  destruct (c =? 38)%Z; [reflexivity|]. destruct (c =? 62)%Z; [reflexivity|].
  destruct (c =? 60)%Z; [reflexivity|]. cbn [forallb]. by rewrite Hc.
Qed.

Lemma escaped_xml_chars (t : str) :
  forallb Xml.is_xml_char t = true →
  forallb Xml.is_xml_char (flat_map escape_char t) = true.
Proof.
  induction t as [|c t IH]; [done|]. cbn [forallb flat_map].
  intros H. apply andb_true_iff in H as [Hc Ht].
  by rewrite forallb_app, escape_char_xml, IH.
Qed.

(** No markup character is left in an escaped text: no less-than and no
    greater-than sign, and an ampersand only at the head of one of the three
    entity references. *)
Lemma escaped_no_markup (t : str) :
  Forall (fun x => x ≠ 60%Z ∧ x ≠ 62%Z) (flat_map escape_char t).
Proof.
  induction t as [|c t IH]; [constructor|]. cbn [flat_map].
  apply Forall_app. split; [|exact IH]. unfold escape_char.
  destruct (c =? 38)%Z eqn:E38; [repeat constructor; discriminate|].
  destruct (c =? 62)%Z eqn:E62; [repeat constructor; discriminate|].
  destruct (c =? 60)%Z eqn:E60; [repeat constructor; discriminate|].
  apply Z.eqb_neq in E62, E60. repeat constructor; done.
Qed.

(** ** The encoder *)

(** [as_xml] on a Channel whose type is a string and whose numbers are
    integers. *)
Lemma as_xml_Ok (self : Channel) (t : str) (a b c d : Z) :
  ch_type self = PyStr t →
  major_ch self = PyInt a →
  minor_ch self = PyInt b →
  ptc self = PyInt c →
  prog_num self = PyInt d →
  as_xml self =
    Ok (channel_document (flat_map escape_char t)
          (format_d a) (format_d b) (format_d c) (format_d d)).
Proof.
  intros Ht Ha Hb Hc Hd.
  unfold as_xml. rewrite Ht, Ha, Hb, Hc, Hd, escape_flat_map. reflexivity.
Qed.

(** C9, as stated, fails: a type string with a character XML does not allow
    (here U+0001) is written out as it is, and the document is not
    well-formed. *)
Lemma C9_counterexample :
  let self := {| ch_type := PyStr [1%Z];
                 major_ch := PyInt 7; minor_ch := PyInt 0; ptc := PyInt 33;
                 prog_num := PyInt 1;
                 dispno := PyStr (lit "7"); title := PyStr (lit "Tele5") |} in
  ∃ doc, as_xml self = Ok doc ∧
         forallb Xml.is_xml_char doc = false ∧
         ¬ Xml.well_formed doc.
Proof.
  eexists. split; [vm_compute; reflexivity|].
  split; [vm_compute; reflexivity|].
  intros [dom Hdom]. vm_compute in Hdom. discriminate.
Qed.

(** C9, amended. For a Channel whose type is a string and whose four numbers
    are integers, [as_xml] returns the fixed document with the type escaped
    character by character (ampersand, greater-than and less-than replaced
    by their entity references, so that neither sign is left in the text)
    and each number as its decimal numeral without padding; the document is
    well-formed whenever the type string consists of characters XML
    allows. *)
Theorem C9_as_xml_document (self : Channel) (t : str) (a b c d : Z) :
  ch_type self = PyStr t →
  major_ch self = PyInt a →
  minor_ch self = PyInt b →
  ptc self = PyInt c →
  prog_num self = PyInt d →
  as_xml self =
    Ok (channel_document (flat_map escape_char t)
          (format_d a) (format_d b) (format_d c) (format_d d)) ∧
  Forall (fun x => x ≠ 60%Z ∧ x ≠ 62%Z) (flat_map escape_char t) ∧
  unpadded_decimal (format_d a) a ∧ unpadded_decimal (format_d b) b ∧
  unpadded_decimal (format_d c) c ∧ unpadded_decimal (format_d d) d ∧
  (forallb Xml.is_xml_char t = true →
   Xml.well_formed (channel_document (flat_map escape_char t)
                      (format_d a) (format_d b) (format_d c) (format_d d))).
Proof.
  intros Ht Ha Hb Hc Hd.
  split; [by apply as_xml_Ok|].
  split; [apply escaped_no_markup|].
  do 4 (split; [apply format_d_unpadded|]).
  intros Hx.
  destruct (run_escaped t (Xml.LText [] 0) [] eq_refl) as (st & acc & Hrun & Hst).
  unfold Xml.well_formed.
  rewrite (parse_channel_document _ _ _ _ _ st acc Hrun Hst);
    eauto using escaped_xml_chars, format_d_plain.
Qed.

Lemma C9_as_xml_document_witness :
  let self := {| ch_type := PyStr (lit "a<b>&c");
                 major_ch := PyInt 7; minor_ch := PyInt 0; ptc := PyInt 33;
                 prog_num := PyInt (-1);
                 dispno := PyStr (lit "7"); title := PyStr (lit "Tele5") |} in
  as_xml self =
    Ok (channel_document (flat_map escape_char (lit "a<b>&c"))
          (format_d 7) (format_d 0) (format_d 33) (format_d (-1))) ∧
  Forall (fun x => x ≠ 60%Z ∧ x ≠ 62%Z) (flat_map escape_char (lit "a<b>&c")) ∧
  unpadded_decimal (format_d 7) 7 ∧ unpadded_decimal (format_d 0) 0 ∧
  unpadded_decimal (format_d 33) 33 ∧ unpadded_decimal (format_d (-1)) (-1) ∧
  (forallb Xml.is_xml_char (lit "a<b>&c") = true →
   Xml.well_formed (channel_document (flat_map escape_char (lit "a<b>&c"))
                      (format_d 7) (format_d 0) (format_d 33) (format_d (-1)))).
Proof.
  apply (C9_as_xml_document _ (lit "a<b>&c") 7 0 33 (-1)); reflexivity.
Defined.

(** The document of the witness, spelled out. *)
Example as_xml_escapes :
  as_xml {| ch_type := PyStr (lit "a<b>&c");
            major_ch := PyInt 7; minor_ch := PyInt 0; ptc := PyInt 33;
            prog_num := PyInt (-1);
            dispno := PyStr (lit "7"); title := PyStr (lit "Tele5") |} =
    Ok (xml_declaration ++
        lit "<Channel><ChType>a&lt;b&gt;&amp;c</ChType><MajorCh>7</MajorCh><MinorCh>0</MinorCh><PTC>33</PTC><ProgNum>-1</ProgNum></Channel>").
Proof. vm_compute. reflexivity. Qed.

(** A Channel the binary path returns: a type name and four integers. *)
Lemma _parse_dat_Ok (buf : bytes) (ch : Channel) :
  _parse_dat buf = Ok ch →
  ∃ (tn : str) (a b c d : Z),
    (tn = lit "CDTV" ∨ tn = lit "CATV" ∨ tn = lit "DTV") ∧
    ch_type ch = PyStr tn ∧ major_ch ch = PyInt a ∧ minor_ch ch = PyInt b ∧
    ptc ch = PyInt c ∧ prog_num ch = PyInt d.
Proof.
  unfold _parse_dat.
  destruct (_getint buf 0) as [t|]; [|discriminate]. cbn [mbind result_bind].
  assert (Hty : ∃ tn, (tn = lit "CDTV" ∨ tn = lit "CATV" ∨ tn = lit "DTV") ∧
            ∀ e, (if (t =? 4)%Z then Ok (lit "CDTV")
                  else if (t =? 3)%Z then Ok (lit "CATV")
                  else if (t =? 2)%Z then Ok (lit "DTV")
                  else Raise e) = Ok tn ∨
                 (if (t =? 4)%Z then Ok (lit "CDTV")
                  else if (t =? 3)%Z then Ok (lit "CATV")
                  else if (t =? 2)%Z then Ok (lit "DTV")
                  else Raise e) = Raise e).
  { destruct (t =? 4)%Z; [eauto 6|]. destruct (t =? 3)%Z; [eauto 6|].
    destruct (t =? 2)%Z; eauto 6. }
  destruct Hty as (tn & Htn & Hty).
  destruct (Hty (ParseException (lit "Unknown channel type " ++ format_d t) []))
    as [-> | ->]; [|discriminate].
  destruct (_getint buf 2) as [a|]; [|discriminate].
  destruct (_getint buf 4) as [b|]; [|discriminate].
  destruct (_getint buf 6) as [c|]; [|discriminate].
  destruct (_getint buf 8) as [d|]; [|discriminate].
  destruct (_getint buf 10) as [r|]; [|discriminate].
  cbn [mbind result_bind].
  destruct (r =? 65535)%Z; [|discriminate].
  destruct (decode_utf8 (slice buf 12 16)); [|discriminate].
  destruct (_getint buf 22); [|discriminate].
  cbn [mbind result_bind].
  destruct (decode_utf8 _); [|discriminate].
  intros [= <-]. exists tn, a, b, c, d. auto 10.
Qed.

(** [as_xml] never fails on a Channel of the binary path. *)
Lemma as_xml_binary (buf : bytes) (ch : Channel) :
  __init__ (FromBytes buf) = Ok ch → ∃ doc, as_xml ch = Ok doc.
Proof.
  intros H. apply _parse_dat_Ok in H as (tn & a & b & c & d & _ & Ht & Ha & Hb & Hc & Hd).
  eexists. apply (as_xml_Ok ch tn a b c d Ht Ha Hb Hc Hd).
Qed.

(** ** The XML construction path *)

(** What the XML path stores is a node value: a string or [None], never an
    integer. *)
Lemma first_child_value_Ok (root : node) (name : str) (v : pyval) :
  first_child_value root name = Ok v → v = PyNone ∨ ∃ s, v = PyStr s.
Proof.
  unfold first_child_value.
  destruct (getElementsByTagName root name) as [es|]; [|discriminate].
  cbn [mbind result_bind].
  destruct (item0 es) as [e|]; [|discriminate]. cbn [mbind result_bind].
  destruct (item0 (childNodes e)) as [c|]; [|discriminate]. cbn [mbind result_bind].
  intros [= <-]. destruct c; cbn [nodeValue]; eauto.
Qed.

Lemma _parse_xml_Ok (root : node) (ch : Channel) :
  _parse_xml root = Ok ch →
  first_child_value root (lit "ChType") = Ok (ch_type ch) ∧
  first_child_value root (lit "MajorCh") = Ok (major_ch ch) ∧
  first_child_value root (lit "MinorCh") = Ok (minor_ch ch) ∧
  first_child_value root (lit "PTC") = Ok (ptc ch) ∧
  first_child_value root (lit "ProgNum") = Ok (prog_num ch) ∧
  dispno ch = major_ch ch ∧
  title ch = PyStr [].
Proof.
  unfold _parse_xml.
  destruct (first_child_value root (lit "ChType")) as [v1|]; [|discriminate].
  destruct (first_child_value root (lit "MajorCh")) as [v2|]; [|discriminate].
  destruct (first_child_value root (lit "MinorCh")) as [v3|]; [|discriminate].
  destruct (first_child_value root (lit "PTC")) as [v4|]; [|discriminate].
  destruct (first_child_value root (lit "ProgNum")) as [v5|]; [|discriminate].
  cbn [mbind result_bind]. intros [= <-]. cbn. auto 10.
Qed.

(** C5, as stated, fails: where the first child of the [ChType] element is
    an element, the type stored is [None], no string, and [as_xml] fails in
    [escape], before any number is formatted. *)
Lemma C5_counterexample :
  let root :=
    Element (lit "Channel")
      [Element (lit "ChType") [Element (lit "b") []];
       Element (lit "MajorCh") [Text (lit "7")];
       Element (lit "MinorCh") [Text (lit "0")];
       Element (lit "PTC") [Text (lit "33")];
       Element (lit "ProgNum") [Text (lit "1")]] in
  ∃ ch, __init__ (FromNode root) = Ok ch ∧
        ch_type ch = PyNone ∧
        as_xml ch = Raise AttributeError.
Proof. eexists. vm_compute. repeat split. Qed.

(** C5, amended. The XML path stores, for each of the five fields, the node
    value of the first child of the first element of that name, as it is:
    the raw text where that child is character data, [None] where it is an
    element, and never an integer.  [dispno] is the stored [major_ch] and
    the title is empty.  [as_xml] fails on every such Channel ([TypeError]
    from [%d] when the type is a string, [AttributeError] from [escape] when
    it is not), while it succeeds on every Channel of the binary path. *)
Theorem C5_xml_constructed (root : node) (ch : Channel) (buf : bytes) (ch' : Channel) :
  __init__ (FromNode root) = Ok ch →
  __init__ (FromBytes buf) = Ok ch' →
  first_child_value root (lit "ChType") = Ok (ch_type ch) ∧
  first_child_value root (lit "MajorCh") = Ok (major_ch ch) ∧
  first_child_value root (lit "MinorCh") = Ok (minor_ch ch) ∧
  first_child_value root (lit "PTC") = Ok (ptc ch) ∧
  first_child_value root (lit "ProgNum") = Ok (prog_num ch) ∧
  Forall (fun v => v = PyNone ∨ ∃ s, v = PyStr s)
    [ch_type ch; major_ch ch; minor_ch ch; ptc ch; prog_num ch] ∧
  dispno ch = major_ch ch ∧
  title ch = PyStr [] ∧
  as_xml ch = Raise (match ch_type ch with PyStr _ => TypeError | _ => AttributeError end) ∧
  ∃ doc, as_xml ch' = Ok doc.
Proof.
  intros Hxml Hdat. cbn [__init__] in Hxml.
  apply _parse_xml_Ok in Hxml as (H1 & H2 & H3 & H4 & H5 & Hd & Ht).
  pose proof (first_child_value_Ok _ _ _ H1) as V1.
  pose proof (first_child_value_Ok _ _ _ H2) as V2.
  pose proof (first_child_value_Ok _ _ _ H3) as V3.
  pose proof (first_child_value_Ok _ _ _ H4) as V4.
  pose proof (first_child_value_Ok _ _ _ H5) as V5.
  repeat (split; [done|]).
  split; [repeat (apply List.Forall_cons; [assumption|]); apply List.Forall_nil|].
  repeat (split; [done|]).
  split; [|by eapply as_xml_binary].
  unfold as_xml.
  destruct V1 as [-> | [s ->]]; [reflexivity|].
  rewrite escape_flat_map. cbn [mbind result_bind].
  destruct V2 as [-> | [s2 ->]]; reflexivity.
Qed.

Lemma C5_xml_constructed_witness :
  let root :=
    Element (lit "Channel")
      [Element (lit "ChType") [Text (lit "CDTV")];
       Element (lit "MajorCh") [Text (lit "7")];
       Element (lit "MinorCh") [Text (lit "0")];
       Element (lit "PTC") [Text (lit "33")];
       Element (lit "ProgNum") [Text (lit "1")]] in
  let ch := {| ch_type := PyStr (lit "CDTV");
               major_ch := PyStr (lit "7"); minor_ch := PyStr (lit "0");
               ptc := PyStr (lit "33"); prog_num := PyStr (lit "1");
               dispno := PyStr (lit "7"); title := PyStr [] |} in
  let ch' := {| ch_type := PyStr (lit "CDTV");
                major_ch := PyInt 7; minor_ch := PyInt 0;
                ptc := PyInt 33; prog_num := PyInt 1;
                dispno := PyStr (lit "7"); title := PyStr (lit "Tele5") |} in
  first_child_value root (lit "ChType") = Ok (ch_type ch) ∧
  first_child_value root (lit "MajorCh") = Ok (major_ch ch) ∧
  first_child_value root (lit "MinorCh") = Ok (minor_ch ch) ∧
  first_child_value root (lit "PTC") = Ok (ptc ch) ∧
  first_child_value root (lit "ProgNum") = Ok (prog_num ch) ∧
  Forall (fun v => v = PyNone ∨ ∃ s, v = PyStr s)
    [ch_type ch; major_ch ch; minor_ch ch; ptc ch; prog_num ch] ∧
  dispno ch = major_ch ch ∧
  title ch = PyStr [] ∧
  as_xml ch = Raise (match ch_type ch with PyStr _ => TypeError | _ => AttributeError end) ∧
  ∃ doc, as_xml ch' = Ok doc.
Proof.
  intros root ch ch'.
  apply (C5_xml_constructed root ch Samples.tele5 ch'); reflexivity.
Defined.

(** ** Round trip through the document *)

Lemma _parse_xml_channel_tree (t a b c d : str) :
  __init__ (FromNode (channel_tree [Text t] [Text a] [Text b] [Text c] [Text d])) =
    Ok {| ch_type := PyStr t;
          major_ch := PyStr a; minor_ch := PyStr b; ptc := PyStr c; prog_num := PyStr d;
          dispno := PyStr a; title := PyStr [] |}.
Proof. reflexivity. Qed.

(** C3, on the code. The record of the concrete scenario, constructed,
    written with [as_xml], parsed and constructed again through the XML
    path: the type comes back, the four numbers do not.  The binary Channel
    holds the integers 7, 0, 33 and 1; the XML path, which stores the
    elements' text and converts nothing, returns the strings "7", "0", "33"
    and "1", and a string is no integer.  (The methods of the class that
    format these fields with [%d] need the integers the binary path
    stores.) *)
Theorem C3_round_trip_on_code :
  ∃ ch doc dom ch',
    __init__ (FromBytes Samples.tele5) = Ok ch ∧
    as_xml ch = Ok doc ∧
    Xml.parseString doc = Some dom ∧
    __init__ (FromNode dom) = Ok ch' ∧
    ch_type ch' = ch_type ch ∧
    major_ch ch = PyInt 7 ∧ major_ch ch' = PyStr (lit "7") ∧
    minor_ch ch = PyInt 0 ∧ minor_ch ch' = PyStr (lit "0") ∧
    ptc ch = PyInt 33 ∧ ptc ch' = PyStr (lit "33") ∧
    prog_num ch = PyInt 1 ∧ prog_num ch' = PyStr (lit "1") ∧
    major_ch ch' ≠ major_ch ch ∧ minor_ch ch' ≠ minor_ch ch ∧
    ptc ch' ≠ ptc ch ∧ prog_num ch' ≠ prog_num ch.
Proof.
  do 4 eexists.
  split; [vm_compute; reflexivity|].
  split; [vm_compute; reflexivity|].
  split; [vm_compute; reflexivity|].
  split; [vm_compute; reflexivity|].
  repeat split; discriminate.
Qed.

(** The same round trip on every record: for a Channel the binary path
    returns, [as_xml] succeeds, its document is read as a tree, and the XML
    path applied to that tree returns a Channel with the same [ch_type]
    and, in place of each of the four integers, its decimal numeral as a
    string. *)
Theorem binary_xml_round_trip (buf : bytes) (ch : Channel) :
  __init__ (FromBytes buf) = Ok ch →
  ∃ (doc : str) (dom : node) (ch' : Channel) (a b c d : Z),
    as_xml ch = Ok doc ∧
    Xml.parseString doc = Some dom ∧
    __init__ (FromNode dom) = Ok ch' ∧
    ch_type ch' = ch_type ch ∧
    major_ch ch = PyInt a ∧ major_ch ch' = PyStr (format_d a) ∧
    minor_ch ch = PyInt b ∧ minor_ch ch' = PyStr (format_d b) ∧
    ptc ch = PyInt c ∧ ptc ch' = PyStr (format_d c) ∧
    prog_num ch = PyInt d ∧ prog_num ch' = PyStr (format_d d) ∧
    unpadded_decimal (format_d a) a ∧ unpadded_decimal (format_d b) b ∧
    unpadded_decimal (format_d c) c ∧ unpadded_decimal (format_d d) d.
Proof.
  intros H. apply _parse_dat_Ok in H as (tn & a & b & c & d & Htn & Ht & Ha & Hb & Hc & Hd).
  pose proof (as_xml_Ok ch tn a b c d Ht Ha Hb Hc Hd) as Hdoc.
  assert (Hesc : flat_map escape_char tn = tn)
    by (destruct Htn as [-> | [-> | ->]]; reflexivity).
  rewrite Hesc in Hdoc.
  assert (Hrun : Xml.run (Xml.LText [] 0) tn = Some (Xml.LText tn 0, []))
    by (destruct Htn as [-> | [-> | ->]]; reflexivity).
  assert (Hx : forallb Xml.is_xml_char tn = true)
    by (destruct Htn as [-> | [-> | ->]]; reflexivity).
  assert (Hne : text_nodes tn = [Text tn])
    by (destruct Htn as [-> | [-> | ->]]; reflexivity).
  pose proof (parse_channel_document tn (format_d a) (format_d b) (format_d c) (format_d d)
                _ tn Hrun eq_refl Hx (format_d_plain a) (format_d_plain b)
                (format_d_plain c) (format_d_plain d)) as Hparse.
  rewrite Hne in Hparse.
  eexists _, _, _, a, b, c, d.
  split; [exact Hdoc|]. split; [exact Hparse|].
  split; [apply _parse_xml_channel_tree|].
  cbn [ch_type major_ch minor_ch ptc prog_num].
  repeat (split; [done || apply format_d_unpadded|]). apply format_d_unpadded.
Qed.

Lemma binary_xml_round_trip_witness :
  ∃ (doc : str) (dom : node) (ch' : Channel) (a b c d : Z),
    as_xml {| ch_type := PyStr (lit "CDTV");
              major_ch := PyInt 7; minor_ch := PyInt 0;
              ptc := PyInt 33; prog_num := PyInt 1;
              dispno := PyStr (lit "7"); title := PyStr (lit "Tele5") |} = Ok doc ∧
    Xml.parseString doc = Some dom ∧
    __init__ (FromNode dom) = Ok ch' ∧
    ch_type ch' = PyStr (lit "CDTV") ∧
    PyInt 7 = PyInt a ∧ major_ch ch' = PyStr (format_d a) ∧
    PyInt 0 = PyInt b ∧ minor_ch ch' = PyStr (format_d b) ∧
    PyInt 33 = PyInt c ∧ ptc ch' = PyStr (format_d c) ∧
    PyInt 1 = PyInt d ∧ prog_num ch' = PyStr (format_d d) ∧
    unpadded_decimal (format_d a) a ∧ unpadded_decimal (format_d b) b ∧
    unpadded_decimal (format_d c) c ∧ unpadded_decimal (format_d d) d.
Proof.
  apply (binary_xml_round_trip Samples.tele5
           {| ch_type := PyStr (lit "CDTV");
              major_ch := PyInt 7; minor_ch := PyInt 0;
              ptc := PyInt 33; prog_num := PyInt 1;
              dispno := PyStr (lit "7"); title := PyStr (lit "Tele5") |}).
  reflexivity.
Defined.

(** ** A bad record in the list *)

(** The decoder stops at the first record the constructor refuses: the
    records before it are constructed, none after it, and the constructor's
    error is raised again with the chunk's offset and bytes as context. *)
Example decode_stops_at_bad_record :
  let bad := Samples.record 1 9 0 35 3 0xffff (Samples.ascii_bytes "9") 3
               (Samples.ascii_bytes "bad") in
  _parse_channel_list (Samples.header 3 ++ Samples.tele5 ++ bad ++ Samples.arte) =
    ([Construct 4; Construct 128],
     Some (Raise (add_context (unknown_type_error 1)
                    (lit "chunk starting at 128: " ++ repr_bytes bad)))).
Proof. vm_compute. reflexivity. Qed.

(** * Further properties of the module *)

(** ** [_getint] *)

Lemma _getint_short (buf : bytes) (offset : nat) :
  length buf < offset + 2 → _getint buf offset = Raise StructError.
Proof.
  intros Hlt. unfold _getint, slice.
  replace (offset + 2 - offset) with 2 by lia.
  assert (Hd : length (drop offset buf) < 2) by (rewrite length_drop; lia).
  destruct (drop offset buf) as [|x [|y l]]; cbn in Hd; try lia; reflexivity.
Qed.

Lemma _getint_Ok_length (buf : bytes) (offset : nat) (z : Z) :
  _getint buf offset = Ok z → offset + 2 ≤ length buf.
Proof.
  intros H. destruct (decide (offset + 2 ≤ length buf)) as [|Hgt]; [done|].
  rewrite _getint_short in H by lia. discriminate.
Qed.

(** X1. [_getint] succeeds exactly when the two bytes at [offset] are inside the
    buffer; its value is then the second byte times 256 plus the first, an
    unsigned 16-bit number.  Otherwise it raises [struct.error]. *)
Theorem _getint_cases (buf : bytes) (offset : nat) :
  (offset + 2 ≤ length buf ∧
   ∃ lo hi : byte,
     buf !! offset = Some lo ∧ buf !! S offset = Some hi ∧
     _getint buf offset = Ok (bz lo + 256 * bz hi)%Z ∧
     (0 ≤ bz lo + 256 * bz hi < 65536)%Z) ∨
  (length buf < offset + 2 ∧ _getint buf offset = Raise StructError).
Proof.
  destruct (decide (offset + 2 ≤ length buf)) as [Hle | Hgt].
  - left. split; [done|].
    destruct (lookup_lt_is_Some_2 buf offset) as [lo Hlo]; [lia|].
    destruct (lookup_lt_is_Some_2 buf (S offset)) as [hi Hhi]; [lia|].
    exists lo, hi. split; [done|]. split; [done|].
    rewrite _getint_u16 by done. unfold u16. rewrite !nth_lookup, Hlo, Hhi.
    split; [reflexivity|].
    pose proof (bz_range lo); pose proof (bz_range hi). cbn [default from_option id]. lia.
  - right. split; [lia|]. apply _getint_short. lia.
Qed.

(** ** The decoder: the remaining checks and the loop *)

(** X2. A buffer of at least 128 bytes whose length less the header is no
    multiple of 124 is refused with the divisibility error, before any
    record is constructed. *)
Theorem decode_not_a_multiple (channel_list : bytes) :
  128 ≤ length channel_list →
  (length channel_list - 4) mod 124 ≠ 0 →
  _parse_channel_list channel_list = ([], Some (Raise (multiple_error channel_list))).
Proof.
  intros Hlen Hmod. unfold _parse_channel_list, multiple_error.
  destruct (decide (length channel_list < 128)); [lia|].
  destruct (decide ((length channel_list - 4) mod 124 ≠ 0)); [reflexivity | contradiction].
Qed.

Lemma decode_not_a_multiple_witness :
  _parse_channel_list (Samples.header 1 ++ Samples.tele5 ++ [x00]) =
    ([], Some (Raise (multiple_error (Samples.header 1 ++ Samples.tele5 ++ [x00])))).
Proof.
  apply (decode_not_a_multiple (Samples.header 1 ++ Samples.tele5 ++ [x00]));
    vm_compute; [lia | discriminate].
Defined.

(** The loop over a run of accepted records that is followed by more of the
    buffer: it comes to the offset after the run with the Channels of the
    run stored. *)
Lemma parse_loop_prefix (recs : list bytes) (chans : list Channel) :
  Forall2 (fun r ch => length r = 124 ∧ __init__ (FromBytes r) = Ok ch) recs chans →
  ∀ (fuel : nat) (pre tail : bytes) (channels : gmap pyval Channel) (tr : list event),
    tail ≠ [] →
    parse_loop (length recs + fuel) (pre ++ concat recs ++ tail) (length pre) channels tr =
    parse_loop fuel (pre ++ concat recs ++ tail) (length pre + 124 * length recs)
      (collect chans channels) (tr ++ map Construct (offsets (length pre) (length recs))).
Proof.
  induction 1 as [|r ch recs chans [Hr Hch] _ IH]; intros fuel pre tail channels tr Htail.
  - cbn [length concat app map offsets seq collect foldl].
    rewrite Nat.mul_0_r, Nat.add_0_r, app_nil_r. reflexivity.
  - cbn [length concat Nat.add parse_loop].
    destruct (decide (length pre < length (pre ++ (r ++ concat recs) ++ tail))) as [_ | Hge];
      [|rewrite !length_app in Hge; lia].
    rewrite <- (assoc_L (++) r).
    rewrite (slice_chunk pre r (concat recs ++ tail) 124 Hr), Hch.
    specialize (IH fuel (pre ++ r) tail (<[dispno ch := ch]> channels)
                  (tr ++ [Construct (length pre)]) Htail).
    rewrite <- (assoc_L (++) pre r) in IH.
    replace (length (pre ++ r)) with (length pre + 124) in IH by (rewrite length_app; lia).
    rewrite IH. rewrite offsets_S. cbn [map collect foldl].
    rewrite <- (assoc_L (++) tr). cbn [app].
    f_equal. lia.
Qed.

Lemma valid_records_constructed (recs : list bytes) :
  Forall valid_record recs →
  ∃ chans, Forall2 (fun r ch => length r = 124 ∧ __init__ (FromBytes r) = Ok ch) recs chans.
Proof.
  induction 1 as [|r recs Hr _ [chans IH]].
  - exists []. constructor.
  - destruct (valid_record_init r Hr) as [ch Hch].
    exists (ch :: chans). constructor; [|done]. split; [apply Hr | done].
Qed.

(** X3. A list with a record the constructor refuses: the decoder constructs the
    records before it and this one, in buffer order, and none after it; it
    raises the constructor's exception, to which, if it is a
    [ParseException], the offset and the bytes of the chunk are added as
    context (any other exception, such as [UnicodeDecodeError], passes as it
    is).  No collection is returned. *)
Theorem decode_stops_at_first_bad_record
    (header : bytes) (good : list bytes) (bad : bytes) (rest : list bytes) (e : exn) :
  length header = 4 →
  _getint header 2 = Ok (Z.of_nat (length good + 1 + length rest)) →
  Forall valid_record good →
  length bad = 124 →
  Forall (fun r => length r = 124) rest →
  __init__ (FromBytes bad) = Raise e →
  _parse_channel_list (header ++ concat good ++ bad ++ concat rest) =
    (map Construct (offsets 4 (length good + 1)),
     Some (Raise (add_context e (chunk_context (4 + 124 * length good) bad)))).
Proof.
  intros Hh Hn Hgood Hbad Hrest He.
  destruct (valid_records_constructed good Hgood) as [chans Hcons].
  assert (Hlg : length (concat good) = 124 * length good).
  { apply length_concat_records. eapply Forall_impl; [exact Hgood|]. intros r Hr. apply Hr. }
  assert (Hlr : length (concat rest) = 124 * length rest)
    by (by apply length_concat_records).
  assert (Hlen : length (header ++ concat good ++ bad ++ concat rest) =
                 4 + 124 * (length good + 1 + length rest)).
  { rewrite !length_app, Hh, Hlg, Hbad, Hlr. lia. }
  unfold _parse_channel_list. rewrite Hlen.
  destruct (decide (4 + 124 * (length good + 1 + length rest) < 128)); [lia|].
  replace (4 + 124 * (length good + 1 + length rest) - 4)
    with ((length good + 1 + length rest) * 124) by lia.
  rewrite Nat.Div0.mod_mul, Nat.div_mul by lia.
  destruct (decide (0 ≠ 0)); [done|].
  assert (Hget : _getint (header ++ concat good ++ bad ++ concat rest) 2 = _getint header 2).
  { do 4 (destruct header as [|? header]; [discriminate Hh|]). reflexivity. }
  rewrite Hget, Hn.
  destruct (decide (Z.of_nat (length good + 1 + length rest) ≠
                    Z.of_nat (length good + 1 + length rest))); [done|].
  replace (4 + 124 * (length good + 1 + length rest))
    with (length good + S (3 + 123 * length good + 124 * (1 + length rest))) by lia.
  pose proof (parse_loop_prefix good chans Hcons
                (S (3 + 123 * length good + 124 * (1 + length rest)))
                header (bad ++ concat rest) ∅ []) as Hloop.
  rewrite Hh in Hloop. rewrite Hloop by (destruct bad; [discriminate Hbad | done]).
  cbn [parse_loop].
  destruct (decide (4 + 124 * length good <
                    length (header ++ concat good ++ bad ++ concat rest))) as [_ | Hge];
    [|rewrite Hlen in Hge; lia].
  assert (Hchunk : slice (header ++ concat good ++ bad ++ concat rest)
                     (4 + 124 * length good) (4 + 124 * length good + 124) = bad).
  { rewrite (assoc_L (++) header).
    replace (4 + 124 * length good) with (length (header ++ concat good))
      by (rewrite length_app, Hh, Hlg; lia).
    by apply slice_chunk. }
  rewrite Hchunk, He. unfold chunk_context.
  replace (length good + 1) with (S (length good)) by lia.
  assert (Hoff : ∀ k p, offsets p (S k) = offsets p k ++ [p + 124 * k]).
  { intros k p. unfold offsets. rewrite seq_S, map_app. reflexivity. }
  rewrite Hoff, map_app. cbn [app map].
  destruct e; reflexivity.
Qed.

Lemma decode_stops_at_first_bad_record_witness :
  let bad := Samples.record 4 9 0 35 3 0 (Samples.ascii_bytes "9") 3
               (Samples.ascii_bytes "bad") in
  _parse_channel_list
    (Samples.header 3 ++ concat [Samples.tele5] ++ bad ++ concat [Samples.arte]) =
    (map Construct (offsets 4 (length [Samples.tele5] + 1)),
     Some (Raise (add_context (reserved_error 0)
                    (chunk_context (4 + 124 * length [Samples.tele5]) bad)))).
Proof.
  intros bad.
  apply (decode_stops_at_first_bad_record (Samples.header 3) [Samples.tele5] bad
           [Samples.arte] (reserved_error 0)).
  - reflexivity.
  - reflexivity.
  - repeat constructor; vm_compute; eauto.
  - reflexivity.
  - repeat constructor.
  - reflexivity.
Defined.

Lemma length_slice_chunk (buf : bytes) (pos : nat) :
  pos + 124 ≤ length buf → length (slice buf pos (pos + 124)) = 124.
Proof.
  intros H. unfold slice. rewrite length_take, length_drop. lia.
Qed.

Lemma parse_loop_Ok_inv (channel_list : bytes) (n : nat) :
  ∀ (fuel pos : nat) (channels : gmap pyval Channel) (tr tr' : list event)
    (m : gmap pyval Channel),
    length channel_list = pos + 124 * n →
    parse_loop fuel channel_list pos channels tr = (tr', Some (Ok m)) →
    ∃ chans : list Channel,
      Forall2 (fun p ch => __init__ (FromBytes (slice channel_list p (p + 124))) = Ok ch)
        (offsets pos n) chans ∧
      m = collect chans channels ∧
      tr' = tr ++ map Construct (offsets pos n) ++
            [LogInfo (lit "Parsed " ++ format_d (Z.of_nat (size m)) ++ lit " channels")].
Proof.
  induction n as [|n IH]; intros fuel pos channels tr tr' m Hlen Hloop.
  - exists []. destruct fuel; cbn [parse_loop] in Hloop;
      (destruct (decide (pos < length channel_list)); [lia|]);
      injection Hloop as <- <-; repeat split; constructor.
  - destruct fuel as [|fuel]; cbn [parse_loop] in Hloop;
      (destruct (decide (pos < length channel_list)); [|lia]); [discriminate|].
    destruct (__init__ (FromBytes (slice channel_list pos (pos + 124)))) as [ch | e] eqn:Hch;
      [|destruct e; discriminate].
    apply IH in Hloop as (chans & Hall & -> & ->); [|lia].
    exists (ch :: chans). rewrite offsets_S. split; [by constructor|].
    split; [reflexivity|]. cbn [map]. by rewrite <- (assoc_L (++)).
Qed.

(** X4. What a returned collection tells.  When the decoder returns, the buffer
    is a 4-byte header and [n >= 1] chunks of 124 bytes, [n] being the count
    in the header; the constructor was called once on each chunk, in buffer
    order, and accepted each; the collection is what storing the Channels in
    that order under their display numbers gives.  Every entry is stored
    under its own display number, and the collection has at least one and at
    most [n] entries. *)
Theorem decode_returns (channel_list : bytes) (tr : list event) (m : gmap pyval Channel) :
  _parse_channel_list channel_list = (tr, Some (Ok m)) →
  ∃ (n : nat) (chans : list Channel),
    1 ≤ n ∧
    length channel_list = 4 + 124 * n ∧
    _getint channel_list 2 = Ok (Z.of_nat n) ∧
    Forall2 (fun p ch => __init__ (FromBytes (slice channel_list p (p + 124))) = Ok ch)
      (offsets 4 n) chans ∧
    m = collect chans ∅ ∧
    tr = map Construct (offsets 4 n) ++
         [LogInfo (lit "Parsed " ++ format_d (Z.of_nat (size m)) ++ lit " channels")] ∧
    (∀ k ch, m !! k = Some ch → dispno ch = k ∧ ch ∈ chans) ∧
    1 ≤ size m ≤ n.
Proof.
  unfold _parse_channel_list. intros H.
  destruct (decide (length channel_list < 128)) as [|Hlen]; [discriminate|].
  destruct (decide ((length channel_list - 4) mod 124 ≠ 0)) as [|Hmod]; [discriminate|].
  destruct (_getint channel_list 2) as [expected|] eqn:Hget; [|discriminate].
  destruct (decide (Z.of_nat ((length channel_list - 4) / 124) ≠ expected)) as [|Heq];
    [discriminate|].
  assert (Hexp : expected = Z.of_nat ((length channel_list - 4) / 124)).
  { by destruct (decide (Z.of_nat ((length channel_list - 4) / 124) = expected)). }
  set (n := (length channel_list - 4) / 124) in *.
  assert (Hn : length channel_list = 4 + 124 * n).
  { assert (Hm0 : (length channel_list - 4) mod 124 = 0)
      by (by destruct (decide ((length channel_list - 4) mod 124 = 0))).
    pose proof (Nat.div_mod (length channel_list - 4) 124 ltac:(lia)) as Hdm.
    fold n in Hdm. lia. }
  clearbody n.
  apply (parse_loop_Ok_inv channel_list n) in H as (chans & Hall & Hm & Htr); [|done].
  assert (Hlc : length chans = n).
  { apply Forall2_length in Hall. unfold offsets in Hall.
    rewrite length_map, length_seq in Hall. done. }
  exists n, chans.
  split; [lia|]. split; [done|]. split; [by rewrite Hexp|].
  split; [done|]. split; [done|]. split; [done|].
  assert (Hkey : ∀ k ch, m !! k = Some ch → dispno ch = k ∧ ch ∈ chans).
  { intros k ch. rewrite Hm, collect_lookup, lookup_empty.
    destruct (last (filter (fun ch0 => dispno ch0 = k) chans)) as [c|] eqn:Hl; [|done].
    intros [= ->]. apply last_Some in Hl as [l' Hl'].
    assert (Hin : ch ∈ filter (fun ch0 => dispno ch0 = k) chans)
      by (rewrite Hl'; set_solver).
    by apply list_elem_of_filter in Hin. }
  split; [exact Hkey|].
  split.
  - destruct (last chans) as [c|] eqn:Hlast.
    + assert (Hsome : is_Some (m !! dispno c)).
      { rewrite Hm, collect_lookup, lookup_empty.
        apply last_Some in Hlast as [l' ->].
        rewrite filter_app, filter_cons_True, last_app by done.
        cbn. eauto. }
      assert (Hs : size m ≠ 0) by exact (map_size_ne_0_lookup_2 m (dispno c) Hsome).
      lia.
    + apply last_None in Hlast. subst chans. cbn in Hlc. lia.
  - rewrite Hm, <- Hlc. apply collect_size.
Qed.

Lemma decode_returns_witness :
  ∃ (n : nat) (chans : list Channel),
    1 ≤ n ∧
    length (Samples.header 3 ++ Samples.tele5 ++ Samples.arte ++ Samples.tele5_bis) =
      4 + 124 * n ∧
    _getint (Samples.header 3 ++ Samples.tele5 ++ Samples.arte ++ Samples.tele5_bis) 2 =
      Ok (Z.of_nat n) ∧
    Forall2 (fun p ch =>
               __init__ (FromBytes
                 (slice (Samples.header 3 ++ Samples.tele5 ++ Samples.arte ++
                         Samples.tele5_bis) p (p + 124))) = Ok ch)
      (offsets 4 n) chans ∧
    (_parse_channel_list
       (Samples.header 3 ++ Samples.tele5 ++ Samples.arte ++ Samples.tele5_bis)).2 =
      Some (Ok (collect chans ∅)) ∧
    1 ≤ size (collect chans ∅) ≤ n.
Proof.
  destruct (decode_returns
              (Samples.header 3 ++ Samples.tele5 ++ Samples.arte ++ Samples.tele5_bis)
              _ _ eq_refl)
    as (n & chans & H1 & H2 & H3 & H4 & H5 & _ & _ & H8).
  exists n, chans. rewrite <- H5. repeat split; done || apply H8.
Defined.

(** The loop raises [UnicodeDecodeError] or a record error of a chunk. *)
Lemma parse_loop_raises (channel_list : bytes) (e : exn) (n : nat) :
  ∀ (fuel i : nat) (channels : gmap pyval Channel) (tr : list event),
    length channel_list = 4 + 124 * (i + n) →
    (parse_loop fuel channel_list (4 + 124 * i) channels tr).2 = Some (Raise e) →
    e = UnicodeDecodeError ∨
    ∃ j : nat,
      4 + 124 * j + 124 ≤ length channel_list ∧
      (e = add_context
             (unknown_type_error (u16 (slice channel_list (4 + 124 * j) (4 + 124 * j + 124)) 0))
             (chunk_context (4 + 124 * j)
                (slice channel_list (4 + 124 * j) (4 + 124 * j + 124))) ∨
       e = add_context
             (reserved_error (u16 (slice channel_list (4 + 124 * j) (4 + 124 * j + 124)) 10))
             (chunk_context (4 + 124 * j)
                (slice channel_list (4 + 124 * j) (4 + 124 * j + 124)))).
Proof.
  induction n as [|n IH]; intros fuel i channels tr Hlen Hloop.
  - destruct fuel; cbn [parse_loop] in Hloop;
      (destruct (decide (4 + 124 * i < length channel_list)); [lia | discriminate]).
  - destruct fuel as [|fuel]; cbn [parse_loop] in Hloop;
      (destruct (decide (4 + 124 * i < length channel_list)); [|lia]); [discriminate|].
    assert (Hc : length (slice channel_list (4 + 124 * i) (4 + 124 * i + 124)) = 124)
      by (apply length_slice_chunk; lia).
    revert Hloop. cbn [__init__]. rewrite _parse_dat_fields by lia.
    destruct (negb (known_type _)).
    { intros [= <-]. right. exists i. split; [lia|]. by left. }
    destruct (negb (_ =? _)%Z).
    { intros [= <-]. right. exists i. split; [lia|]. by right. }
    destruct (utf8_decode (slice _ 12 16)); [|intros [= <-]; by left].
    destruct (utf8_decode (slice _ 24 _)); [|intros [= <-]; by left].
    replace (4 + 124 * i + 124) with (4 + 124 * S i) by lia.
    apply IH. lia.
Qed.

(** X5. The errors of the decoder.  Whatever the buffer, an exception the
    decoder raises is the size error, the divisibility error, [TypeError]
    (from the count check), [UnicodeDecodeError], or the unknown-type or the
    reserved-field error of a chunk, with that chunk as context.  Every
    chunk the loop cuts has exactly 124 bytes, so [struct.error] is never
    raised. *)
Theorem decode_raises (channel_list : bytes) (e : exn) :
  (_parse_channel_list channel_list).2 = Some (Raise e) →
  e = size_error channel_list ∨
  e = multiple_error channel_list ∨
  e = TypeError ∨
  e = UnicodeDecodeError ∨
  ∃ j : nat,
    4 + 124 * j + 124 ≤ length channel_list ∧
    (e = add_context
           (unknown_type_error (u16 (slice channel_list (4 + 124 * j) (4 + 124 * j + 124)) 0))
           (chunk_context (4 + 124 * j)
              (slice channel_list (4 + 124 * j) (4 + 124 * j + 124))) ∨
     e = add_context
           (reserved_error (u16 (slice channel_list (4 + 124 * j) (4 + 124 * j + 124)) 10))
           (chunk_context (4 + 124 * j)
              (slice channel_list (4 + 124 * j) (4 + 124 * j + 124)))).
Proof.
  unfold _parse_channel_list.
  destruct (decide (length channel_list < 128)) as [|Hlen]; [intros [= <-]; by left|].
  destruct (decide ((length channel_list - 4) mod 124 ≠ 0)) as [|Hmod];
    [intros [= <-]; right; by left|].
  rewrite _getint_u16 by lia.
  destruct (decide (_ ≠ _)); [intros [= <-]; right; right; by left|].
  intros H. right. right. right.
  assert (Hm0 : (length channel_list - 4) mod 124 = 0)
    by (by destruct (decide ((length channel_list - 4) mod 124 = 0))).
  pose proof (Nat.div_mod (length channel_list - 4) 124 ltac:(lia)) as Hdm.
  apply (parse_loop_raises channel_list e ((length channel_list - 4) / 124)
           (length channel_list) 0 ∅ []); [lia|].
  exact H.
Qed.

Lemma decode_raises_witness :
  let buf := Samples.header 1 ++
             Samples.record 4 7 0 33 1 0xffff (Samples.ascii_bytes "7") 1 [xff] in
  UnicodeDecodeError = size_error buf ∨
  UnicodeDecodeError = multiple_error buf ∨
  UnicodeDecodeError = TypeError ∨
  UnicodeDecodeError = UnicodeDecodeError ∨
  ∃ j : nat,
    4 + 124 * j + 124 ≤ length buf ∧
    (UnicodeDecodeError = add_context
           (unknown_type_error (u16 (slice buf (4 + 124 * j) (4 + 124 * j + 124)) 0))
           (chunk_context (4 + 124 * j) (slice buf (4 + 124 * j) (4 + 124 * j + 124))) ∨
     UnicodeDecodeError = add_context
           (reserved_error (u16 (slice buf (4 + 124 * j) (4 + 124 * j + 124)) 10))
           (chunk_context (4 + 124 * j) (slice buf (4 + 124 * j) (4 + 124 * j + 124)))).
Proof.
  intros buf. apply (decode_raises buf UnicodeDecodeError). reflexivity.
Defined.

(** ** The fields of a Channel of the binary path *)

Ltac bool_hyps :=
  repeat match goal with
  | H : (_ && _)%bool = true |- _ => apply andb_true_iff in H as [? ?]
  | H : (_ <=? _)%Z = true |- _ => apply Z.leb_le in H
  | H : (_ <? _)%Z = true |- _ => apply Z.ltb_lt in H
  | H : (_ <? _)%Z = false |- _ => apply Z.ltb_ge in H
  | H : (_ =? _)%Z = true |- _ => apply Z.eqb_eq in H
  | H : (_ =? _)%Z = false |- _ => apply Z.eqb_neq in H
  end.

(** A decoded text has at most one character per byte, and its characters
    are Unicode scalar values. *)
Lemma utf8_decode_sound (n : nat) :
  ∀ (bs : bytes) (s : str),
    length bs ≤ n → utf8_decode bs = Some s →
    length s ≤ length bs ∧ Forall scalar_value s.
Proof.
  induction n as [|n IH]; intros bs s Hlen H.
  { destruct bs; [|cbn in Hlen; lia]. injection H as <-. split; [done | constructor]. }
  destruct bs as [|b0 r0]; [injection H as <-; split; [cbn; lia | constructor]|].
  cbn [utf8_decode] in H. cbn [length] in Hlen |- *.
  pose proof (bz_range b0) as R0.
  destruct (bz b0 <? 128)%Z eqn:E1.
  { destruct (utf8_decode r0) as [s0|] eqn:Hr; [|discriminate]. injection H as <-.
    destruct (IH r0 s0 ltac:(lia) Hr) as [Hl Hs]. bool_hyps.
    split; [cbn; lia|]. constructor; [unfold scalar_value; lia | done]. }
  destruct (in_range 194 223 (bz b0)) eqn:E2.
  { destruct r0 as [|b1 r1]; [discriminate|].
    pose proof (bz_range b1) as R1.
    destruct (is_cont (bz b1)) eqn:C1; [|discriminate].
    destruct (utf8_decode r1) as [s0|] eqn:Hr; [|discriminate]. injection H as <-.
    cbn [length] in Hlen |- *.
    destruct (IH r1 s0 ltac:(lia) Hr) as [Hl Hs].
    unfold in_range, is_cont in *. bool_hyps.
    split; [lia|]. constructor; [unfold scalar_value; lia | done]. }
  destruct (in_range 224 239 (bz b0)) eqn:E3.
  { destruct r0 as [|b1 [|b2 r2]]; try discriminate.
    pose proof (bz_range b1) as R1. pose proof (bz_range b2) as R2.
    destruct (in_range _ _ (bz b1) && is_cont (bz b2)) eqn:C; [|discriminate].
    destruct (utf8_decode r2) as [s0|] eqn:Hr; [|discriminate]. injection H as <-.
    cbn [length] in Hlen |- *.
    destruct (IH r2 s0 ltac:(lia) Hr) as [Hl Hs].
    unfold in_range, is_cont in *.
    split; [lia|]. constructor; [|done].
    destruct (bz b0 =? 224)%Z eqn:A; destruct (bz b0 =? 237)%Z eqn:B;
      bool_hyps; unfold scalar_value; lia. }
  destruct (in_range 240 244 (bz b0)) eqn:E4; [|discriminate].
  destruct r0 as [|b1 [|b2 [|b3 r3]]]; try discriminate.
  pose proof (bz_range b1) as R1. pose proof (bz_range b2) as R2.
  pose proof (bz_range b3) as R3.
  destruct (in_range _ _ (bz b1) && is_cont (bz b2) && is_cont (bz b3)) eqn:C;
    [|discriminate].
  destruct (utf8_decode r3) as [s0|] eqn:Hr; [|discriminate]. injection H as <-.
  cbn [length] in Hlen |- *.
  destruct (IH r3 s0 ltac:(lia) Hr) as [Hl Hs].
  unfold in_range, is_cont in *.
  split; [lia|]. constructor; [|done].
  destruct (bz b0 =? 240)%Z eqn:A; destruct (bz b0 =? 244)%Z eqn:B;
    bool_hyps; unfold scalar_value; lia.
Qed.

(** What [rstrip] removes is a run of NULs at the end, and all of it. *)
Lemma rstrip_nul_spec (s : str) :
  (∃ k : nat, s = rstrip_nul s ++ replicate k 0%Z) ∧ last (rstrip_nul s) ≠ Some 0%Z.
Proof.
  induction s as [|c s [[k Hk] Hlast]]; [split; [by exists 0 | discriminate]|].
  cbn [rstrip_nul]. destruct (rstrip_nul s) as [|c' r'] eqn:Hr.
  - destruct (c =? 0)%Z eqn:Hc.
    + apply Z.eqb_eq in Hc. subst c. split; [|discriminate].
      exists (S k). cbn. by rewrite Hk at 1.
    + apply Z.eqb_neq in Hc. split; [exists k; cbn; by rewrite Hk at 1|].
      cbn. congruence.
  - split; [exists k; cbn; by rewrite Hk at 1|]. exact Hlast.
Qed.

Lemma _parse_dat_Ok_length (buf : bytes) (ch : Channel) :
  _parse_dat buf = Ok ch → 24 ≤ length buf.
Proof.
  unfold _parse_dat.
  destruct (_getint buf 0) as [t|]; [|discriminate]. cbn [mbind result_bind].
  destruct (if (t =? 4)%Z then _ else _); [|discriminate].
  destruct (_getint buf 2); [|discriminate].
  destruct (_getint buf 4); [|discriminate].
  destruct (_getint buf 6); [|discriminate].
  destruct (_getint buf 8); [|discriminate].
  destruct (_getint buf 10) as [r|]; [|discriminate]. cbn [mbind result_bind].
  destruct (r =? 65535)%Z; [|discriminate].
  destruct (decode_utf8 (slice buf 12 16)); [|discriminate].
  destruct (_getint buf 22) eqn:H22; [|discriminate].
  intros _. apply _getint_Ok_length in H22. lia.
Qed.

Lemma _parse_dat_Ok_fields (buf : bytes) (ch : Channel) :
  __init__ (FromBytes buf) = Ok ch →
  24 ≤ length buf ∧
  ∃ (tn : str) (a b c d : Z) (dn ti : str),
    ch = {| ch_type := PyStr tn; major_ch := PyInt a; minor_ch := PyInt b;
            ptc := PyInt c; prog_num := PyInt d;
            dispno := PyStr dn; title := PyStr ti |} ∧
    (tn = lit "CDTV" ∨ tn = lit "CATV" ∨ tn = lit "DTV") ∧
    (0 ≤ a < 65536)%Z ∧ (0 ≤ b < 65536)%Z ∧ (0 ≤ c < 65536)%Z ∧ (0 ≤ d < 65536)%Z ∧
    length dn ≤ 4 ∧ last dn ≠ Some 0%Z ∧
    length ti ≤ Z.to_nat (u16 buf 22) ∧ length ti ≤ length buf - 24 ∧
    Forall scalar_value dn ∧ Forall scalar_value ti.
Proof.
  intros H. cbn [__init__] in H.
  pose proof (_parse_dat_Ok_length buf ch H) as Hlen. split; [done|].
  rewrite _parse_dat_fields in H by done.
  destruct (negb (known_type (u16 buf 0))); [discriminate|].
  destruct (negb (u16 buf 10 =? 65535)%Z); [discriminate|].
  destruct (utf8_decode (slice buf 12 16)) as [d0|] eqn:Hd; [|discriminate].
  destruct (utf8_decode (slice buf 24 _)) as [ti|] eqn:Ht; [|discriminate].
  injection H as <-.
  destruct (utf8_decode_sound _ _ _ (Nat.le_refl _) Hd) as [Hdl Hds].
  destruct (utf8_decode_sound _ _ _ (Nat.le_refl _) Ht) as [Htl Hts].
  destruct (rstrip_nul_spec d0) as [[k Hk] Hlast].
  assert (Hs1 : length (slice buf 12 16) ≤ 4)
    by (unfold slice; rewrite length_take; lia).
  assert (Hs2 : length (slice buf 24 (24 + Z.to_nat (u16 buf 22))) ≤ Z.to_nat (u16 buf 22) ∧
                length (slice buf 24 (24 + Z.to_nat (u16 buf 22))) ≤ length buf - 24)
    by (unfold slice; rewrite length_take, length_drop; lia).
  eexists _, _, _, _, _, _, _. split; [reflexivity|].
  split; [destruct (_ =? 4)%Z; [|destruct (_ =? 3)%Z]; auto|].
  do 4 (split; [apply u16_range|]).
  assert (Hdn : length (rstrip_nul d0) ≤ length d0)
    by (rewrite Hk at 2; rewrite length_app; lia).
  split; [lia|]. split; [done|]. split; [lia|]. split; [lia|].
  split; [|done].
  rewrite Hk in Hds. by apply Forall_app in Hds as [? _].
Qed.

(** X7. A Channel the binary path returns: the type is one of the three names,
    the four numbers are unsigned 16-bit integers, the display number has at
    most four characters and does not end in a NUL, the title has at most as
    many characters as the record declares bytes for it and as the buffer
    holds from offset 24, and both texts consist of Unicode scalar values.
    The buffer has at least the 24 bytes of the fixed fields. *)
Theorem binary_channel_fields (buf : bytes) (ch : Channel) :
  __init__ (FromBytes buf) = Ok ch →
  24 ≤ length buf ∧
  ∃ (tn : str) (a b c d : Z) (dn ti : str),
    ch = {| ch_type := PyStr tn; major_ch := PyInt a; minor_ch := PyInt b;
            ptc := PyInt c; prog_num := PyInt d;
            dispno := PyStr dn; title := PyStr ti |} ∧
    (tn = lit "CDTV" ∨ tn = lit "CATV" ∨ tn = lit "DTV") ∧
    (0 ≤ a < 65536)%Z ∧ (0 ≤ b < 65536)%Z ∧ (0 ≤ c < 65536)%Z ∧ (0 ≤ d < 65536)%Z ∧
    length dn ≤ 4 ∧ last dn ≠ Some 0%Z ∧
    length ti ≤ Z.to_nat (u16 buf 22) ∧ length ti ≤ length buf - 24 ∧
    Forall scalar_value dn ∧ Forall scalar_value ti.
Proof. exact (_parse_dat_Ok_fields buf ch). Qed.

Lemma binary_channel_fields_witness :
  24 ≤ length Samples.tele5 ∧
  ∃ (tn : str) (a b c d : Z) (dn ti : str),
    {| ch_type := PyStr (lit "CDTV"); major_ch := PyInt 7; minor_ch := PyInt 0;
       ptc := PyInt 33; prog_num := PyInt 1;
       dispno := PyStr (lit "7"); title := PyStr (lit "Tele5") |} =
    {| ch_type := PyStr tn; major_ch := PyInt a; minor_ch := PyInt b;
       ptc := PyInt c; prog_num := PyInt d;
       dispno := PyStr dn; title := PyStr ti |} ∧
    (tn = lit "CDTV" ∨ tn = lit "CATV" ∨ tn = lit "DTV") ∧
    (0 ≤ a < 65536)%Z ∧ (0 ≤ b < 65536)%Z ∧ (0 ≤ c < 65536)%Z ∧ (0 ≤ d < 65536)%Z ∧
    length dn ≤ 4 ∧ last dn ≠ Some 0%Z ∧
    length ti ≤ Z.to_nat (u16 Samples.tele5 22) ∧ length ti ≤ length Samples.tele5 - 24 ∧
    Forall scalar_value dn ∧ Forall scalar_value ti.
Proof.
  apply (binary_channel_fields Samples.tele5). reflexivity.
Defined.

(** X8. Bytes the binary path never looks at: the six bytes from offset 16 to
    21 and every byte at or after the end of the declared title.  Changing
    one of them changes nothing in the outcome, be it a Channel or an
    error. *)
Theorem binary_path_ignores_padding (buf : bytes) (i : nat) (x : byte) :
  24 ≤ length buf →
  (16 ≤ i < 22) ∨ 24 + Z.to_nat (u16 buf 22) ≤ i →
  __init__ (FromBytes (<[i := x]> buf)) = __init__ (FromBytes buf).
Proof.
  intros Hlen Hi. cbn [__init__].
  rewrite !_parse_dat_fields by (rewrite ?length_insert; lia).
  rewrite !u16_insert_ne by lia.
  rewrite !slice_insert_outside by lia.
  reflexivity.
Qed.

Lemma binary_path_ignores_padding_witness :
  __init__ (FromBytes (<[30 := xff]> Samples.tele5)) = __init__ (FromBytes Samples.tele5).
Proof.
  apply (binary_path_ignores_padding Samples.tele5 30 xff); vm_compute; lia.
Defined.

(** ** Rendering a Channel *)

(** X9. [display_string] on a Channel of the binary path: the type in brackets,
    the display number right-aligned in a column of exactly four characters,
    and the title. *)
Theorem display_string_binary (buf : bytes) (ch : Channel) :
  __init__ (FromBytes buf) = Ok ch →
  ∃ tn dn ti : str,
    ch_type ch = PyStr tn ∧ dispno ch = PyStr dn ∧ title ch = PyStr ti ∧
    display_string ch =
      lit "[" ++ tn ++ lit "] " ++ (replicate (4 - length dn) 32%Z ++ dn) ++ lit " " ++ ti ∧
    length (replicate (4 - length dn) 32%Z ++ dn) = 4 ∧
    length (display_string ch) = length tn + 8 + length ti.
Proof.
  intros H.
  apply _parse_dat_Ok_fields in H
    as (_ & tn & a & b & c & d & dn & ti & -> & _ & _ & _ & _ & _ & Hdn & _).
  exists tn, dn, ti. cbn [ch_type dispno title].
  assert (Hcol : length (replicate (4 - length dn) 32%Z ++ dn) = 4)
    by (rewrite length_app, length_replicate; lia).
  repeat (split; [reflexivity|]). split; [exact Hcol|].
  unfold display_string, percent_4s, percent_s. cbn [ch_type dispno title].
  rewrite !length_app, length_replicate. cbn [length lit map list_ascii_of_string]. lia.
Qed.

Lemma display_string_binary_witness :
  let ch := {| ch_type := PyStr (lit "CDTV"); major_ch := PyInt 7; minor_ch := PyInt 0;
               ptc := PyInt 33; prog_num := PyInt 1;
               dispno := PyStr (lit "7"); title := PyStr (lit "Tele5") |} in
  ∃ tn dn ti : str,
    ch_type ch = PyStr tn ∧ dispno ch = PyStr dn ∧ title ch = PyStr ti ∧
    display_string ch =
      lit "[" ++ tn ++ lit "] " ++ (replicate (4 - length dn) 32%Z ++ dn) ++ lit " " ++ ti ∧
    length (replicate (4 - length dn) 32%Z ++ dn) = 4 ∧
    length (display_string ch) = length tn + 8 + length ti.
Proof.
  intros ch. apply (display_string_binary Samples.tele5 ch). reflexivity.
Defined.

(** X10. [__repr__], whatever [repr] makes of the title: on a Channel of the
    binary path it returns the line with the display number, the title's
    [repr], the type and the four numbers in decimal; on a Channel of the
    XML path it raises [TypeError], the numbers being strings or [None]. *)
Theorem repr_binary_and_xml (repr_str : str → str)
    (buf : bytes) (ch : Channel) (root : node) (ch' : Channel) :
  __init__ (FromBytes buf) = Ok ch →
  __init__ (FromNode root) = Ok ch' →
  (∃ (tn dn ti : str) (a b c d : Z),
     ch_type ch = PyStr tn ∧ dispno ch = PyStr dn ∧ title ch = PyStr ti ∧
     major_ch ch = PyInt a ∧ minor_ch ch = PyInt b ∧ ptc ch = PyInt c ∧
     prog_num ch = PyInt d ∧
     __repr__ repr_str ch =
       Ok (lit "<Channel " ++ dn ++ lit " " ++ repr_str ti ++
           lit " ChType=" ++ tn ++
           lit " MajorCh=" ++ format_d a ++ lit " MinorCh=" ++ format_d b ++
           lit " PTC=" ++ format_d c ++ lit " ProgNum=" ++ format_d d ++ lit ">")) ∧
  __repr__ repr_str ch' = Raise TypeError.
Proof.
  intros Hdat Hxml. split.
  - apply _parse_dat_Ok_fields in Hdat
      as (_ & tn & a & b & c & d & dn & ti & -> & _).
    exists tn, dn, ti, a, b, c, d. repeat (split; [reflexivity|]). reflexivity.
  - cbn [__init__] in Hxml.
    apply _parse_xml_Ok in Hxml as (_ & H2 & _).
    apply first_child_value_Ok in H2.
    unfold __repr__. destruct H2 as [-> | [s ->]]; reflexivity.
Qed.

Lemma repr_binary_and_xml_witness :
  let quoted := fun s : str => [39%Z] ++ s ++ [39%Z] in
  let ch := {| ch_type := PyStr (lit "CDTV"); major_ch := PyInt 7; minor_ch := PyInt 0;
               ptc := PyInt 33; prog_num := PyInt 1;
               dispno := PyStr (lit "7"); title := PyStr (lit "Tele5") |} in
  let ch' := {| ch_type := PyStr (lit "CDTV");
                major_ch := PyStr (lit "7"); minor_ch := PyStr (lit "0");
                ptc := PyStr (lit "33"); prog_num := PyStr (lit "1");
                dispno := PyStr (lit "7"); title := PyStr [] |} in
  (∃ (tn dn ti : str) (a b c d : Z),
     ch_type ch = PyStr tn ∧ dispno ch = PyStr dn ∧ title ch = PyStr ti ∧
     major_ch ch = PyInt a ∧ minor_ch ch = PyInt b ∧ ptc ch = PyInt c ∧
     prog_num ch = PyInt d ∧
     __repr__ quoted ch =
       Ok (lit "<Channel " ++ dn ++ lit " " ++ quoted ti ++
           lit " ChType=" ++ tn ++
           lit " MajorCh=" ++ format_d a ++ lit " MinorCh=" ++ format_d b ++
           lit " PTC=" ++ format_d c ++ lit " ProgNum=" ++ format_d d ++ lit ">")) ∧
  __repr__ quoted ch' = Raise TypeError.
Proof.
  intros quoted ch ch'.
  apply (repr_binary_and_xml quoted Samples.tele5 ch
           (channel_tree [Text (lit "CDTV")] [Text (lit "7")] [Text (lit "0")]
              [Text (lit "33")] [Text (lit "1")]) ch');
    reflexivity.
Defined.

(** X11. [as_params]: on a Channel of the binary path it returns a mapping of
    exactly three keys, the caller's list type, the document of [as_xml] and
    the caller's satellite id; on a Channel of the XML path it raises what
    [as_xml] raises and returns no mapping. *)
Theorem as_params_binary_and_xml (chtype sid : pyval)
    (buf : bytes) (ch : Channel) (root : node) (ch' : Channel) :
  __init__ (FromBytes buf) = Ok ch →
  __init__ (FromNode root) = Ok ch' →
  (∃ (doc : str) (m : gmap str pyval),
     as_xml ch = Ok doc ∧
     as_params ch chtype sid = Ok m ∧
     dom m = {[lit "ChannelListType"; lit "Channel"; lit "SatelliteID"]} ∧
     size m = 3 ∧
     m !! lit "ChannelListType" = Some chtype ∧
     m !! lit "Channel" = Some (PyStr doc) ∧
     m !! lit "SatelliteID" = Some sid) ∧
  as_params ch' chtype sid =
    Raise (match ch_type ch' with PyStr _ => TypeError | _ => AttributeError end).
Proof.
  intros Hdat Hxml. split.
  - destruct (as_xml_binary buf ch Hdat) as [doc Hdoc].
    eexists doc, _. split; [exact Hdoc|].
    unfold as_params. rewrite Hdoc. cbn [mbind result_bind].
    split; [reflexivity|].
    assert (H12 : lit "Channel" ≠ lit "ChannelListType") by (vm_compute; discriminate).
    assert (H13 : lit "SatelliteID" ≠ lit "ChannelListType") by (vm_compute; discriminate).
    assert (H23 : lit "SatelliteID" ≠ lit "Channel") by (vm_compute; discriminate).
    split; [rewrite !dom_insert_L, dom_empty_L; set_solver|].
    split.
    { rewrite map_size_insert_None
        by (rewrite lookup_insert_ne by done; rewrite lookup_insert_ne by done;
            apply lookup_empty).
      rewrite map_size_insert_None by (rewrite lookup_insert_ne by done; apply lookup_empty).
      rewrite map_size_insert_None by apply lookup_empty.
      by rewrite map_size_empty. }
    split.
    { rewrite lookup_insert_ne by done. rewrite lookup_insert_ne by done.
      apply lookup_insert_eq. }
    split; [rewrite lookup_insert_ne by done; apply lookup_insert_eq|].
    apply lookup_insert_eq.
  - cbn [__init__] in Hxml.
    apply _parse_xml_Ok in Hxml as (H1 & H2 & _).
    apply first_child_value_Ok in H1. apply first_child_value_Ok in H2.
    unfold as_params, as_xml.
    destruct H1 as [-> | [s ->]]; [reflexivity|].
    rewrite escape_flat_map. destruct H2 as [-> | [s2 ->]]; reflexivity.
Qed.

Lemma as_params_binary_and_xml_witness :
  let ch := {| ch_type := PyStr (lit "CDTV"); major_ch := PyInt 7; minor_ch := PyInt 0;
               ptc := PyInt 33; prog_num := PyInt 1;
               dispno := PyStr (lit "7"); title := PyStr (lit "Tele5") |} in
  let ch' := {| ch_type := PyStr (lit "CDTV");
                major_ch := PyStr (lit "7"); minor_ch := PyStr (lit "0");
                ptc := PyStr (lit "33"); prog_num := PyStr (lit "1");
                dispno := PyStr (lit "7"); title := PyStr [] |} in
  (∃ (doc : str) (m : gmap str pyval),
     as_xml ch = Ok doc ∧
     as_params ch (PyStr (lit "0x01")) (PyInt 0) = Ok m ∧
     dom m = {[lit "ChannelListType"; lit "Channel"; lit "SatelliteID"]} ∧
     size m = 3 ∧
     m !! lit "ChannelListType" = Some (PyStr (lit "0x01")) ∧
     m !! lit "Channel" = Some (PyStr doc) ∧
     m !! lit "SatelliteID" = Some (PyInt 0)) ∧
  as_params ch' (PyStr (lit "0x01")) (PyInt 0) =
    Raise (match ch_type ch' with PyStr _ => TypeError | _ => AttributeError end).
Proof.
  intros ch ch'.
  apply (as_params_binary_and_xml (PyStr (lit "0x01")) (PyInt 0) Samples.tele5 ch
           (channel_tree [Text (lit "CDTV")] [Text (lit "7")] [Text (lit "0")]
              [Text (lit "33")] [Text (lit "1")]) ch');
    reflexivity.
Defined.

(** ** The exception's text *)

Lemma join_snoc (sep : str) (l : list str) (x y : str) :
  join sep ((x :: l) ++ [y]) = join sep (x :: l) ++ sep ++ y.
Proof.
  cbn [join app]. rewrite flat_map_app. cbn [flat_map].
  by rewrite app_nil_r, <- (assoc_L (++)).
Qed.

(** X12. [add_context] and [__str__].  Adding a context string keeps the message
    and the earlier entries and puts the new entry last.  In the text of
    the exception, a first entry turns the bare message into the message
    followed by the bracketed context; a later entry is put, after a
    semicolon, before the closing bracket of the text there was. *)
Theorem str_add_context (msg : str) (context : list str) (c : str) :
  add_context (ParseException msg context) c = ParseException msg (context ++ [c]) ∧
  __str__ msg (context ++ [c]) =
    match context with
    | [] => __str__ msg [] ++ lit " [context: " ++ c ++ lit "]"
    | _ => removelast (__str__ msg context) ++ lit "; " ++ c ++ lit "]"
    end.
Proof.
  split; [reflexivity|].
  destruct context as [|x l]; [cbn; by rewrite app_nil_r|].
  unfold __str__. change ((x :: l) ++ [c]) with (x :: l ++ [c]).
  cbn match. change (x :: l ++ [c]) with ((x :: l) ++ [c]).
  rewrite join_snoc.
  change (lit "]") with [93%Z].
  rewrite !(assoc_L (++) _ _ [93%Z]), removelast_last.
  by rewrite <- !(assoc_L (++)).
Qed.

(** ** The XML construction path: where it looks and what it refuses *)

Lemma getElementsByTagName_document (tag : str) (cs : list node) (name : str) :
  tag ≠ name →
  getElementsByTagName (Document [Element tag cs]) name =
    getElementsByTagName (Element tag cs) name.
Proof.
  intros Hne. cbn. rewrite decide_False by done. by rewrite app_nil_r.
Qed.

(** X13. A document and its root element are the same to the XML path, as long
    as the root element is not itself named like one of the five fields
    (below a document the root element is among the elements searched, below
    itself it is not). *)
Theorem xml_path_document_or_root (tag : str) (cs : list node) :
  tag ∉ field_names →
  __init__ (FromNode (Document [Element tag cs])) = __init__ (FromNode (Element tag cs)).
Proof.
  intros Hnot. cbn [__init__]. unfold _parse_xml, first_child_value.
  rewrite !getElementsByTagName_document; [reflexivity|..];
    intros ->; apply Hnot; unfold field_names; set_solver.
Qed.

Lemma xml_path_document_or_root_witness :
  __init__ (FromNode (Document [Element (lit "Channel")
                        [Element (lit "ChType") [Text (lit "CDTV")]]])) =
  __init__ (FromNode (Element (lit "Channel")
                        [Element (lit "ChType") [Text (lit "CDTV")]])).
Proof.
  apply (xml_path_document_or_root (lit "Channel")).
  vm_compute. intros H. repeat (apply elem_of_cons in H as [H | H]; [discriminate|]).
  by apply elem_of_nil in H.
Defined.

(** X14. The XML path refuses a tree that lacks one of the five elements, or in
    which the first element of one of the five names (in document order) has
    no child: it raises its one error, with no context, whatever the other
    elements hold. *)
Theorem xml_path_missing_field (root : node) (name : str) :
  name ∈ field_names →
  (_get_elements_by_tagName_helper name root = [] ∨
   ∃ e es, _get_elements_by_tagName_helper name root = e :: es ∧ childNodes e = []) →
  __init__ (FromNode root) = Raise wrong_document.
Proof.
  intros Hname Hmiss.
  assert (Hfail : ∃ e, first_child_value root name = Raise e).
  { unfold first_child_value, getElementsByTagName.
    destruct root as [cs | tag cs | d | d]; try (eexists; reflexivity);
      cbn [mbind result_bind];
      (destruct Hmiss as [-> | (e & es & -> & Hc)];
        [eexists; reflexivity | cbn [item0 mbind result_bind]; rewrite Hc; eexists; reflexivity]). }
  destruct Hfail as [e He].
  cbn [__init__]. unfold _parse_xml, wrong_document.
  unfold field_names in Hname.
  repeat (apply elem_of_cons in Hname as [-> | Hname];
    [rewrite He;
     repeat match goal with
     | |- context [first_child_value root ?n] =>
       lazymatch n with
       | name => fail
       | _ => destruct (first_child_value root n)
       end
     end; reflexivity|]).
  by apply elem_of_nil in Hname.
Qed.

Lemma xml_path_missing_field_witness :
  __init__ (FromNode (channel_tree [] [Text (lit "7")] [Text (lit "0")]
                        [Text (lit "33")] [Text (lit "1")])) = Raise wrong_document.
Proof.
  apply (xml_path_missing_field _ (lit "ChType")).
  - unfold field_names. apply elem_of_cons. by left.
  - right. eexists _, _. split; reflexivity.
Defined.

(** ** What the document carries *)

Section Carried.
Import Xml.

(** An escaped character that is no carriage return is read back as
    itself. *)
Lemma run_escape_char_exact (c : Z) (acc : str) (k : nat) :
  c ≠ 13%Z →
  ∃ k', run (LText acc k) (escape_char c) = Some (LText (acc ++ [c]) k', []).
Proof.
  intros Hcr. unfold escape_char.
  destruct (c =? 38)%Z eqn:E38; [apply Z.eqb_eq in E38 as ->; eexists; reflexivity|].
  destruct (c =? 62)%Z eqn:E62; [apply Z.eqb_eq in E62 as ->; eexists; reflexivity|].
  destruct (c =? 60)%Z eqn:E60; [apply Z.eqb_eq in E60 as ->; eexists; reflexivity|].
  cbn [run step]. unfold text_step. rewrite E60, E38, E62.
  rewrite (proj2 (Z.eqb_neq _ _) Hcr). cbn [andb].
  destruct (c =? 93)%Z; eexists; reflexivity.
Qed.

Lemma run_escaped_exact (t : str) :
  ∀ (acc : str) (k : nat),
    Forall (fun c => c ≠ 13%Z) t →
    ∃ k', run (LText acc k) (flat_map escape_char t) = Some (LText (acc ++ t) k', []).
Proof.
  induction t as [|c t IH]; intros acc k Hcr.
  - exists k. cbn. by rewrite app_nil_r.
  - apply Forall_cons in Hcr as [Hc Ht]. cbn [flat_map]. rewrite run_app.
    destruct (run_escape_char_exact c acc k Hc) as [k1 ->].
    destruct (IH (acc ++ [c]) k1 Ht) as [k2 ->].
    exists k2. by rewrite <- (assoc_L (++)).
Qed.

End Carried.

(** X15. The type survives the document.  For a Channel with a string type made
    of characters XML allows, none of them a carriage return, and with
    integer numbers, the document of [as_xml] is read as the Channel tree
    whose [ChType] text is the type, unescaped, and whose other texts are
    the decimal numerals.  If the type is not empty, the XML path applied
    to that tree returns a Channel with this very type; if it is empty, the
    [ChType] element has no child and the XML path refuses the tree. *)
Theorem as_xml_carries_type (self : Channel) (t : str) (a b c d : Z) :
  ch_type self = PyStr t →
  major_ch self = PyInt a →
  minor_ch self = PyInt b →
  ptc self = PyInt c →
  prog_num self = PyInt d →
  forallb Xml.is_xml_char t = true →
  Forall (fun x => x ≠ 13%Z) t →
  ∃ doc : str,
    as_xml self = Ok doc ∧
    Xml.parseString doc =
      Some (channel_tree (text_nodes t) [Text (format_d a)] [Text (format_d b)]
              [Text (format_d c)] [Text (format_d d)]) ∧
    __init__ (FromNode (channel_tree (text_nodes t) [Text (format_d a)] [Text (format_d b)]
                          [Text (format_d c)] [Text (format_d d)])) =
      match t with
      | [] => Raise wrong_document
      | _ =>
        Ok {| ch_type := PyStr t;
              major_ch := PyStr (format_d a); minor_ch := PyStr (format_d b);
              ptc := PyStr (format_d c); prog_num := PyStr (format_d d);
              dispno := PyStr (format_d a); title := PyStr [] |}
      end.
Proof.
  intros Ht Ha Hb Hc Hd Hx Hcr.
  eexists. split; [by apply as_xml_Ok|].
  destruct (run_escaped_exact t [] 0 Hcr) as [k Hrun].
  split.
  - apply (parse_channel_document _ _ _ _ _ (Xml.LText ([] ++ t) k) t Hrun eq_refl);
      auto using escaped_xml_chars, format_d_plain.
  - destruct t; reflexivity.
Qed.

Lemma as_xml_carries_type_witness :
  let self := {| ch_type := PyStr (lit "a<b>&]]>c");
                 major_ch := PyInt 7; minor_ch := PyInt 0; ptc := PyInt 33;
                 prog_num := PyInt 1;
                 dispno := PyStr (lit "7"); title := PyStr (lit "Tele5") |} in
  ∃ doc : str,
    as_xml self = Ok doc ∧
    Xml.parseString doc =
      Some (channel_tree (text_nodes (lit "a<b>&]]>c")) [Text (format_d 7)]
              [Text (format_d 0)] [Text (format_d 33)] [Text (format_d 1)]) ∧
    __init__ (FromNode (channel_tree (text_nodes (lit "a<b>&]]>c")) [Text (format_d 7)]
                          [Text (format_d 0)] [Text (format_d 33)] [Text (format_d 1)])) =
      match lit "a<b>&]]>c" with
      | [] => Raise wrong_document
      | _ =>
        Ok {| ch_type := PyStr (lit "a<b>&]]>c");
              major_ch := PyStr (format_d 7); minor_ch := PyStr (format_d 0);
              ptc := PyStr (format_d 33); prog_num := PyStr (format_d 1);
              dispno := PyStr (format_d 7); title := PyStr [] |}
      end.
Proof.
  intros self.
  apply (as_xml_carries_type self (lit "a<b>&]]>c") 7 0 33 1); try reflexivity.
  vm_compute. repeat constructor; discriminate.
Defined.

(** *** Two Channels, one document *)

Lemma lit_inj (s1 s2 : string) : lit s1 = lit s2 → s1 = s2.
Proof.
  unfold lit. intros H.
  rewrite <- (string_of_list_ascii_of_string s1), <- (string_of_list_ascii_of_string s2).
  f_equal. revert H. generalize (list_ascii_of_string s1) (list_ascii_of_string s2).
  induction l as [|x l IH]; intros [|y l']; cbn [map]; try discriminate; [done|].
  intros [= Hxy Hl]. f_equal; [|by apply IH].
  apply N2Z.inj in Hxy.
  by rewrite <- (ascii_N_embedding x), <- (ascii_N_embedding y), Hxy.
Qed.

Lemma to_int_not_nil (z : Z) :
  Z.to_int z ≠ Decimal.Pos Decimal.Nil ∧ Z.to_int z ≠ Decimal.Neg Decimal.Nil.
Proof.
  assert (Hn : Decimal.norm (Z.to_int z) = Z.to_int z)
    by (rewrite <- DecimalZ.to_of, DecimalZ.of_to; reflexivity).
  split; intros E; rewrite E in Hn; discriminate Hn.
Qed.

(** [%d] writes different numerals for different integers. *)
Lemma format_d_inj (z1 z2 : Z) : format_d z1 = format_d z2 → z1 = z2.
Proof.
  unfold format_d. intros H. apply lit_inj in H.
  destruct (to_int_not_nil z1) as [P1 N1]. destruct (to_int_not_nil z2) as [P2 N2].
  pose proof (DecimalString.NilZero.isi _ P1 N1) as I1.
  pose proof (DecimalString.NilZero.isi _ P2 N2) as I2.
  rewrite H in I1. rewrite I1 in I2. injection I2 as E.
  rewrite <- (DecimalZ.of_to z1), <- (DecimalZ.of_to z2). by rewrite E.
Qed.

Lemma binary_document (buf : bytes) (ch : Channel) :
  __init__ (FromBytes buf) = Ok ch →
  ∃ (tn : str) (a b c d : Z),
    ch_type ch = PyStr tn ∧ major_ch ch = PyInt a ∧ minor_ch ch = PyInt b ∧
    ptc ch = PyInt c ∧ prog_num ch = PyInt d ∧
    as_xml ch = Ok (channel_document tn (format_d a) (format_d b) (format_d c) (format_d d)) ∧
    Xml.parseString (channel_document tn (format_d a) (format_d b) (format_d c) (format_d d)) =
      Some (channel_tree [Text tn] [Text (format_d a)] [Text (format_d b)]
              [Text (format_d c)] [Text (format_d d)]).
Proof.
  intros H. apply _parse_dat_Ok in H as (tn & a & b & c & d & Htn & Ht & Ha & Hb & Hc & Hd).
  exists tn, a, b, c, d. repeat (split; [done|]).
  pose proof (as_xml_Ok ch tn a b c d Ht Ha Hb Hc Hd) as Hdoc.
  assert (Hesc : flat_map escape_char tn = tn)
    by (destruct Htn as [-> | [-> | ->]]; reflexivity).
  rewrite Hesc in Hdoc. split; [exact Hdoc|].
  assert (Hrun : Xml.run (Xml.LText [] 0) tn = Some (Xml.LText tn 0, []))
    by (destruct Htn as [-> | [-> | ->]]; reflexivity).
  assert (Hx : forallb Xml.is_xml_char tn = true)
    by (destruct Htn as [-> | [-> | ->]]; reflexivity).
  assert (Hne : text_nodes tn = [Text tn])
    by (destruct Htn as [-> | [-> | ->]]; reflexivity).
  rewrite <- Hne.
  apply (parse_channel_document tn _ _ _ _ _ tn Hrun eq_refl Hx);
    apply format_d_plain.
Qed.

(** X16. The document identifies the channel.  Two Channels of the binary path
    with the same [as_xml] document have the same type and the same four
    numbers (display number and title may differ: they are not written). *)
Theorem as_xml_identifies_channel (buf1 buf2 : bytes) (ch1 ch2 : Channel) :
  __init__ (FromBytes buf1) = Ok ch1 →
  __init__ (FromBytes buf2) = Ok ch2 →
  as_xml ch1 = as_xml ch2 →
  ch_type ch1 = ch_type ch2 ∧ major_ch ch1 = major_ch ch2 ∧
  minor_ch ch1 = minor_ch ch2 ∧ ptc ch1 = ptc ch2 ∧ prog_num ch1 = prog_num ch2.
Proof.
  intros H1 H2 Heq.
  apply binary_document in H1
    as (t1 & a1 & b1 & c1 & d1 & -> & -> & -> & -> & -> & Hd1 & Hp1).
  apply binary_document in H2
    as (t2 & a2 & b2 & c2 & d2 & -> & -> & -> & -> & -> & Hd2 & Hp2).
  rewrite Hd1, Hd2 in Heq.
  assert (Hdoc : channel_document t1 (format_d a1) (format_d b1) (format_d c1) (format_d d1) =
                 channel_document t2 (format_d a2) (format_d b2) (format_d c2) (format_d d2))
    by congruence.
  rewrite Hdoc, Hp2 in Hp1.
  assert (Htree : channel_tree [Text t2] [Text (format_d a2)] [Text (format_d b2)]
                    [Text (format_d c2)] [Text (format_d d2)] =
                  channel_tree [Text t1] [Text (format_d a1)] [Text (format_d b1)]
                    [Text (format_d c1)] [Text (format_d d1)])
    by congruence.
  unfold channel_tree in Htree. injection Htree as <- Ea Eb Ec Ed.
  apply format_d_inj in Ea, Eb, Ec, Ed. by subst.
Qed.

Lemma as_xml_identifies_channel_witness :
  let ch1 := {| ch_type := PyStr (lit "CDTV"); major_ch := PyInt 7; minor_ch := PyInt 0;
                ptc := PyInt 33; prog_num := PyInt 1;
                dispno := PyStr (lit "7"); title := PyStr (lit "Tele5") |} in
  let ch2 := {| ch_type := PyStr (lit "CDTV"); major_ch := PyInt 7; minor_ch := PyInt 0;
                ptc := PyInt 33; prog_num := PyInt 1;
                dispno := PyStr (lit "9"); title := PyStr (lit "other") |} in
  ch_type ch1 = ch_type ch2 ∧ major_ch ch1 = major_ch ch2 ∧
  minor_ch ch1 = minor_ch ch2 ∧ ptc ch1 = ptc ch2 ∧ prog_num ch1 = prog_num ch2.
Proof.
  intros ch1 ch2.
  apply (as_xml_identifies_channel Samples.tele5
           (Samples.record 4 7 0 33 1 0xffff (Samples.ascii_bytes "9") 5
              (Samples.ascii_bytes "other")) ch1 ch2);
    reflexivity.
Defined.

(** ** The two unused bytes of the header *)

Lemma parse_loop_offsets (channel_list : bytes) (n : nat) :
  ∀ (fuel pos : nat) (chans : list Channel) (channels : gmap pyval Channel)
    (tr : list event),
    length channel_list = pos + 124 * n →
    n ≤ fuel →
    Forall2 (fun p ch => __init__ (FromBytes (slice channel_list p (p + 124))) = Ok ch)
      (offsets pos n) chans →
    parse_loop fuel channel_list pos channels tr =
      (tr ++ map Construct (offsets pos n) ++
         [LogInfo (lit "Parsed " ++ format_d (Z.of_nat (size (collect chans channels))) ++
                   lit " channels")],
       Some (Ok (collect chans channels))).
Proof.
  induction n as [|n IH]; intros fuel pos chans channels tr Hlen Hfuel Hall.
  - apply Forall2_nil_inv_l in Hall as ->.
    destruct fuel; cbn [parse_loop];
      (destruct (decide (pos < length channel_list)); [lia | reflexivity]).
  - rewrite offsets_S in Hall |- *.
    apply Forall2_cons_inv_l in Hall as (ch & chans' & Hch & Hall & ->).
    destruct fuel as [|fuel]; [lia|]. cbn [parse_loop].
    destruct (decide (pos < length channel_list)); [|lia].
    rewrite Hch, (IH fuel (pos + 124) chans') by (done || lia).
    cbn [map collect foldl]. by rewrite <- (assoc_L (++)).
Qed.

(** X6. The first two bytes of the list are never interpreted: a buffer the
    decoder accepts is accepted with the same constructor calls and the same
    collection whatever is written to one of them. *)
Theorem decode_ignores_header_prefix (channel_list : bytes) (i : nat) (x : byte)
    (tr : list event) (m : gmap pyval Channel) :
  i < 2 →
  _parse_channel_list channel_list = (tr, Some (Ok m)) →
  _parse_channel_list (<[i := x]> channel_list) = (tr, Some (Ok m)).
Proof.
  intros Hi H. unfold _parse_channel_list in *. rewrite length_insert.
  destruct (decide (length channel_list < 128)) as [|Hlen]; [discriminate|].
  destruct (decide ((length channel_list - 4) mod 124 ≠ 0)) as [|Hmod]; [discriminate|].
  assert (Hget : _getint (<[i := x]> channel_list) 2 = _getint channel_list 2).
  { rewrite !_getint_u16 by (rewrite ?length_insert; lia).
    by rewrite u16_insert_ne by lia. }
  rewrite Hget.
  destruct (_getint channel_list 2) as [expected|]; [|discriminate].
  destruct (decide (_ ≠ expected)); [discriminate|].
  assert (Hm0 : (length channel_list - 4) mod 124 = 0)
    by (by destruct (decide ((length channel_list - 4) mod 124 = 0))).
  pose proof (Nat.div_mod (length channel_list - 4) 124 ltac:(lia)) as Hdm.
  set (cnt := (length channel_list - 4) / 124) in *. clearbody cnt.
  apply (parse_loop_Ok_inv channel_list cnt) in H as (chans & Hall & -> & ->); [|lia].
  rewrite (parse_loop_offsets (<[i := x]> channel_list) cnt (length channel_list) 4 chans);
    [reflexivity | rewrite length_insert; lia | lia |].
  unfold offsets in *.
  change (map (fun j => 4 + 124 * j) (seq 0 cnt))
    with ((fun j => 4 + 124 * j) <$> seq 0 cnt) in *.
  apply Forall2_fmap_l. apply Forall2_fmap_l in Hall.
  eapply Forall2_impl; [exact Hall|]. intros j ch Hj. cbn [compose] in *.
  by rewrite slice_insert_outside by lia.
Qed.

Lemma decode_ignores_header_prefix_witness :
  ∃ (tr : list event) (m : gmap pyval Channel),
    _parse_channel_list (<[0 := xff]> (Samples.header 1 ++ Samples.tele5)) =
      (tr, Some (Ok m)).
Proof.
  eexists _, _.
  apply (decode_ignores_header_prefix (Samples.header 1 ++ Samples.tele5) 0 xff);
    [lia | reflexivity].
Defined.
